(** * A shallow embedding of the hotel question-answering front-end (main.py)

    The script reads seven settings from the process environment, connects
    to a Couchbase cluster, builds a retrieval-augmented-generation chain
    (retriever, prompt template, chat model, string output parser) and, when
    the operator typed a question, invokes the chain and displays the reply.

    Everything the script does to the outside (Streamlit widgets, log
    records, the Couchbase SDK, the embedding and completion services) is
    modelled as an event in a trace; the outside's replies are oracles that
    thread an abstract world.  Python exceptions are values of [exception];
    a computation returns [Ok a] or [Raise e], and what it did before
    raising stays in the world and in the trace. *)

From Stdlib Require Import ZArith List String Ascii Bool Lia.
From stdpp Require Import base option list gmap strings pretty.
Import ListNotations.

Local Open Scope string_scope.
Local Open Scope Z_scope.

(** ** Python exceptions *)

(** The exception classes the script can see.  [SystemExit] derives from
    [BaseException] only; [CouchbaseException] and every other error raised
    by the libraries derive from [Exception]. *)
Inductive exception : Type :=
| SystemExit (code : Z)
| CouchbaseException (msg : string)
| OtherException (cls : string) (msg : string).

(** [isinstance(e, Exception)] *)
Definition is_Exception (e : exception) : bool :=
  match e with
  | SystemExit _ => false
  | CouchbaseException _ | OtherException _ _ => true
  end.

(** [isinstance(e, CouchbaseException)] *)
Definition is_CouchbaseException (e : exception) : bool :=
  match e with
  | CouchbaseException _ => true
  | SystemExit _ | OtherException _ _ => false
  end.

(** [str(e)] *)
Definition exception_str (e : exception) : string :=
  match e with
  | SystemExit code => pretty code
  | CouchbaseException msg => msg
  | OtherException _ msg => msg
  end.

Inductive result (A : Type) : Type :=
| Ok (a : A)
| Raise (e : exception).
Arguments Ok {A} a.
Arguments Raise {A} e.

Definition result_map {A B : Type} (f : A -> B) (r : result A) : result B :=
  match r with
  | Ok a => Ok (f a)
  | Raise e => Raise e
  end.

(** ** Values handed to the prompt template *)

(** A retrieved document: its text (the [review] field, [text_key]) and the
    remaining fields of the stored record. *)
Record Document : Type := mkDocument {
  page_content : string;
  metadata : list (string * string)
}.

(** The two kinds of value the chain puts in the prompt's input dict. *)
Inductive PyVal : Type :=
| VStr (s : string)
| VDocs (docs : list Document).

(** The line feed of the Python literal [\n]. *)
Definition nl : string := String "010"%char EmptyString.

(** [sep.join(parts)] *)
Fixpoint join (sep : string) (parts : list string) : string :=
  match parts with
  | [] => EmptyString
  | [p] => p
  | p :: ps => p +:+ sep +:+ join sep ps
  end.

Section Rendering.

(** [repr(doc)], fixed by the library that defines [Document]. *)
Variable Document_repr : Document -> string.

(** [str(docs)] for a Python list: the [repr] of each element, separated
    by a comma and a space, between square brackets. *)
Definition list_str (docs : list Document) : string :=
  "[" +:+ join ", " (map Document_repr docs) +:+ "]".

(** [format(v, '')], which is [str(v)] for both kinds of value. *)
Definition py_str (v : PyVal) : string :=
  match v with
  | VStr s => s
  | VDocs docs => list_str docs
  end.

(** [str.format] with keyword arguments [kwargs], for the fragment of
    Python's format strings with plain named fields: [{name}] is replaced by the string of
    [kwargs[name]], [{{] and [}}] stand for one brace.  The replacement is
    not scanned again.  [field] is [Some name] while the scanner is inside
    a replacement field whose name read so far is [name]. *)
Fixpoint vformat (t : string) (field : option string)
    (kwargs : gmap string PyVal) {struct t} : result string :=
  match t with
  | EmptyString =>
      match field with
      | None => Ok EmptyString
      | Some _ =>
          Raise (OtherException "ValueError" "expected '}' before end of string")
      end
  | String c rest =>
      match field with
      | Some name =>
          if Ascii.eqb c "}" then
            match kwargs !! name with
            | None => Raise (OtherException "KeyError" name)
            | Some v =>
                result_map (String.append (py_str v)) (vformat rest None kwargs)
            end
          else if Ascii.eqb c "{" then
            Raise (OtherException "ValueError" "unexpected '{' in field name")
          else vformat rest (Some (name +:+ String c EmptyString)) kwargs
      | None =>
          if Ascii.eqb c "{" then
            match rest with
            | String "{" rest' =>
                result_map (String "{") (vformat rest' None kwargs)
            | _ => vformat rest (Some EmptyString) kwargs
            end
          else if Ascii.eqb c "}" then
            match rest with
            | String "}" rest' =>
                result_map (String "}") (vformat rest' None kwargs)
            | _ =>
                Raise (OtherException "ValueError"
                         "Single '}' encountered in format string")
            end
          else result_map (String c) (vformat rest None kwargs)
      end
  end.

(** The template of [build_rag_chain]: three adjacent literals, the first
    two ending in a space. *)
Definition template : string :=
  "You are a helpful bot. If you cannot answer based on the context provided, "
  +:+ "respond with a generic answer. Answer the question as truthfully as possible "
  +:+ "using the context below:" +:+ nl +:+ nl +:+ "{context}"
  +:+ nl +:+ nl +:+ "Question: {question}".

(** [ChatPromptTemplate.from_template(template)] keeps the template; its
    [invoke] formats it with the input dict into the one human message. *)
Definition prompt_format (tpl : string) (kwargs : gmap string PyVal) : result string :=
  vformat tpl None kwargs.

End Rendering.

(** ** Effects: the world, the trace and the exception monad *)

Section Pipeline.

(** The state of everything outside the process, the SDK's connection
    handle and the embedding vectors are left abstract. *)
Variables World Cluster Vector : Type.

(** [OpenAIEmbeddings(model=...)] *)
Record Embeddings : Type := mkEmbeddings { emb_model : string }.

(** [CouchbaseVectorStore(cluster=..., ...)] *)
Record VectorStore : Type := mkVectorStore {
  vs_cluster : Cluster;
  vs_bucket_name : string;
  vs_scope_name : string;
  vs_collection_name : string;
  vs_embedding : Embeddings;
  vs_embedding_key : string;
  vs_text_key : string;
  vs_index_name : string
}.

(** [ChatOpenAI(temperature=..., model=..., streaming=...)] *)
Record ChatModel : Type := mkChatModel {
  llm_temperature : Z;
  llm_model : string;
  llm_streaming : bool
}.

(** The reply of the chat model. *)
Record AIMessage : Type := mkAIMessage { content : string }.

(** What the process does to the outside, one constructor per operation
    of the interfaces it is given: Streamlit, the logger, the Couchbase
    SDK, the embedding and completion clients. *)
Inductive event : Type :=
| StTitle (body : string)
| StWrite (body : string)
| StError (body : string)
| StTextInput (label : string)
| StSpinner (text : string)
| LogInfo (msg : string)
| LogError (msg : string) (exc_info : bool)
| ClusterNew (connection_string username password : string)
| ClusterWaitUntilReady (c : Cluster) (seconds : Z)
| ClusterClose (c : Cluster)
| EmbeddingsNew (emb : Embeddings)
| VectorStoreNew (vs : VectorStore)
| ChatModelNew (llm : ChatModel)
| EmbedQuery (emb : Embeddings) (text : string)
| SimilaritySearch (vs : VectorStore) (query : Vector)
| ChatCompletion (llm : ChatModel) (prompt : string).

(** The replies of the outside.  Each call may change the world and
    either returns or raises. *)
Record Services : Type := mkServices {
  cluster_new : string -> string -> string -> World -> result Cluster * World;
  cluster_wait_until_ready : Cluster -> Z -> World -> result unit * World;
  embeddings_new : Embeddings -> World -> result unit * World;
  vector_store_new : VectorStore -> World -> result unit * World;
  chat_model_new : ChatModel -> World -> result unit * World;
  embed_query : Embeddings -> string -> World -> result Vector * World;
  similarity_search : VectorStore -> Vector -> World -> result (list Document) * World;
  chat_completion : ChatModel -> string -> World -> result AIMessage * World
}.

Definition M (A : Type) : Type := World -> result A * World * list event.

Definition ret {A : Type} (a : A) : M A := fun w => (Ok a, w, []).

Definition raise {A : Type} (e : exception) : M A := fun w => (Raise e, w, []).

Definition bind {A B : Type} (m : M A) (k : A -> M B) : M B :=
  fun w =>
    match m w with
    | (Ok a, w1, t1) =>
        match k a w1 with
        | (r, w2, t2) => (r, w2, (t1 ++ t2)%list)
        end
    | (Raise e, w1, t1) => (Raise e, w1, t1)
    end.

Definition emit (ev : event) : M unit := fun w => (Ok tt, w, [ev]).

(** A call to the outside: the event, then the oracle's reply. *)
Definition call {A : Type} (ev : event) (oracle : World -> result A * World) : M A :=
  fun w =>
    match oracle w with
    | (r, w1) => (r, w1, [ev])
    end.

(** [try: body / except <class> as e: handler e] *)
Definition try_except {A : Type} (body : M A) (catches : exception -> bool)
    (handler : exception -> M A) : M A :=
  fun w =>
    match body w with
    | (Ok a, w1, t1) => (Ok a, w1, t1)
    | (Raise e, w1, t1) =>
        if catches e then
          match handler e w1 with
          | (r, w2, t2) => (r, w2, (t1 ++ t2)%list)
          end
        else (Raise e, w1, t1)
    end.

End Pipeline.

Arguments ret {World Cluster Vector A} a.
Arguments raise {World Cluster Vector A} e.
Arguments bind {World Cluster Vector A B} m k.
Arguments emit {World Cluster Vector} ev.
Arguments call {World Cluster Vector A} ev oracle.
Arguments try_except {World Cluster Vector A} body catches handler.

Notation "x <- c ;; k" := (bind c (fun x => k))
  (at level 100, c at next level, right associativity).
Notation "c ;; k" := (bind c (fun _ => k))
  (at level 100, right associativity).

(** ** The script *)

Section Program.

Variables World Cluster Vector : Type.
Variable svc : Services World Cluster Vector.

(** [repr] of a retrieved document and [traceback.format_exc()] for the
    exception being handled: text produced by the libraries. *)
Variable Document_repr : Document -> string.
Variable traceback_format_exc : exception -> string.

Local Abbreviation M := (M World Cluster Vector).
Local Abbreviation event := (event Cluster Vector).
Local Abbreviation VectorStore := (VectorStore Cluster).

Definition Runnable (A B : Type) : Type := A -> M B.

(** *** Streamlit, logging and [sys] *)

Definition st_title (body : string) : M unit := emit (StTitle _ _ body).
Definition st_write (body : string) : M unit := emit (StWrite _ _ body).
Definition st_error (body : string) : M unit := emit (StError _ _ body).
Definition st_spinner (text : string) : M unit := emit (StSpinner _ _ text).

(** [st.text_input(label)] returns what the widget holds in this run. *)
Definition st_text_input (label : string) (widget : string) : M string :=
  emit (StTextInput _ _ label) ;; ret widget.

Definition logger_info (msg : string) : M unit := emit (LogInfo _ _ msg).
Definition logger_error (msg : string) (exc_info : bool) : M unit :=
  emit (LogError _ _ msg exc_info).

(** [sys.exit(code)] raises [SystemExit(code)]. *)
Definition sys_exit {A : Type} (code : Z) : M A := raise (SystemExit code).

(** Truth value of a [str]: false exactly for the empty string. *)
Definition str_bool (s : string) : bool :=
  match s with
  | EmptyString => false
  | String _ _ => true
  end.

(** *** [get_env_variable] *)

Definition get_env_variable (environ : gmap string string) (var_name : string)
    : M string :=
  match environ !! var_name with
  | None =>
      let error_message :=
        "Required environment variable '" +:+ var_name +:+ "' is missing." in
      logger_error error_message false ;;
      st_error error_message ;;
      sys_exit 1
  | Some value => ret value
  end.

(** *** [initialize_cluster] *)

Definition initialize_cluster (connection_string username password : string)
    : M Cluster :=
  try_except
    (cluster <- call (ClusterNew _ _ connection_string username password)
                  (cluster_new _ _ _ svc connection_string username password) ;;
     call (ClusterWaitUntilReady _ _ cluster 5)
       (cluster_wait_until_ready _ _ _ svc cluster 5) ;;
     logger_info "Successfully connected to Couchbase cluster." ;;
     ret cluster)
    is_CouchbaseException
    (fun e =>
       logger_error ("Error connecting to Couchbase cluster: " +:+ exception_str e)
         false ;;
       raise e).

(** *** The runnables of [build_rag_chain] *)

(** [first | second] *)
Definition pipe {A B C : Type} (first : Runnable A B) (second : Runnable B C)
    : Runnable A C :=
  fun input => x <- first input ;; second x.

Definition RunnablePassthrough {A : Type} : Runnable A A := fun input => ret input.

(** A dict of runnables on the left of [|]: every entry is invoked on the
    same input and the outputs are collected under the entries' keys.  The
    library submits the entries to a thread pool; here they run in the
    order of the dict, which is what an observer sees when at most one
    entry has effects. *)
Fixpoint RunnableParallel (steps : list (string * Runnable string PyVal))
    : Runnable string (gmap string PyVal) :=
  fun input =>
    match steps with
    | [] => ret ∅
    | (key, step) :: rest =>
        v <- step input ;;
        out <- RunnableParallel rest input ;;
        ret (<[key := v]> out)
    end.

(** [vector_store.as_retriever()]: embed the query with the store's
    embedding client, then search the index; the documents come back as
    the store returned them. *)
Definition as_retriever (vector_store : VectorStore)
    : Runnable string (list Document) :=
  fun query =>
    v <- call (EmbedQuery _ _ (vs_embedding _ vector_store) query)
           (embed_query _ _ _ svc (vs_embedding _ vector_store) query) ;;
    call (SimilaritySearch _ _ vector_store v)
      (similarity_search _ _ _ svc vector_store v).

(** [ChatPromptTemplate.from_template(tpl)]: formatting errors are
    raised when the prompt is invoked. *)
Definition ChatPromptTemplate_from_template (tpl : string)
    : Runnable (gmap string PyVal) string :=
  fun kwargs =>
    match prompt_format Document_repr tpl kwargs with
    | Ok text => ret text
    | Raise e => raise e
    end.

Definition ChatModel_invoke (llm : ChatModel) : Runnable string AIMessage :=
  fun prompt =>
    call (ChatCompletion _ _ llm prompt) (chat_completion _ _ _ svc llm prompt).

Definition StrOutputParser : Runnable AIMessage string :=
  fun message => ret (content message).

(** The dict on the left of the chain: the retriever under [context], the
    question passed through under [question]. *)
Definition rag_inputs (vector_store : VectorStore)
    : Runnable string (gmap string PyVal) :=
  let retriever := as_retriever vector_store in
  RunnableParallel
    [("context", fun q => docs <- retriever q ;; ret (VDocs docs));
     ("question", fun q => s <- RunnablePassthrough q ;; ret (VStr s))].

(** The chain of [build_rag_chain], for the objects it constructed. *)
Definition rag_chain (vector_store : VectorStore) (llm : ChatModel)
    : Runnable string string :=
  let prompt := ChatPromptTemplate_from_template template in
  pipe
    (pipe
       (pipe (rag_inputs vector_store) prompt)
       (ChatModel_invoke llm))
    StrOutputParser.

(** *** [build_rag_chain] *)

Definition build_rag_chain (cluster : Cluster)
    (bucket_name scope_name collection_name search_index_name : string)
    : M (Runnable string string) :=
  let embeddings := mkEmbeddings "text-embedding-3-small" in
  call (EmbeddingsNew _ _ embeddings) (embeddings_new _ _ _ svc embeddings) ;;
  let vector_store :=
    mkVectorStore _ cluster bucket_name scope_name collection_name embeddings
      "embedding" "review" search_index_name in
  call (VectorStoreNew _ _ vector_store) (vector_store_new _ _ _ svc vector_store) ;;
  let llm := mkChatModel 0 "gpt-4-1106-preview" true in
  call (ChatModelNew _ _ llm) (chat_model_new _ _ _ svc llm) ;;
  ret (rag_chain vector_store llm).

(** *** [main] *)

(** The body of the [try] statement. *)
Definition main_try (couchbase_connection_string db_username db_password
    bucket_name scope_name collection_name search_index_name : string)
    (widget : string) : M unit :=
  cluster <- initialize_cluster couchbase_connection_string db_username db_password ;;
  rag_invoke <- build_rag_chain cluster bucket_name scope_name collection_name
                  search_index_name ;;
  question <- st_text_input "Enter your question about hotels:" widget ;;
  if str_bool question then
    st_spinner "Processing your query..." ;;
    response <- rag_invoke question ;;
    st_write "Response:" ;;
    st_write response ;;
    logger_info "Query processed successfully."
  else ret tt.

(** The [except Exception as e] clause. *)
Definition main_except (e : exception) : M unit :=
  st_error "An error occurred while processing your request." ;;
  let error_details := traceback_format_exc e in
  st_error error_details ;;
  logger_error ("Exception occurred: " +:+ exception_str e) true.

(** One execution of [main]: [environ] is [os.environ], [widget] what the
    text input holds. *)
Definition main (environ : gmap string string) (widget : string) : M unit :=
  st_title "Hotel Recommendation System" ;;
  st_write "Ask a question about hotels and get recommendations based on context." ;;
  couchbase_connection_string <- get_env_variable environ "COUCHBASE_CONNECTION_STRING" ;;
  db_username <- get_env_variable environ "COUCHBASE_USERNAME" ;;
  db_password <- get_env_variable environ "COUCHBASE_PASSWORD" ;;
  bucket_name <- get_env_variable environ "COUCHBASE_BUCKET" ;;
  scope_name <- get_env_variable environ "COUCHBASE_SCOPE" ;;
  collection_name <- get_env_variable environ "COUCHBASE_COLLECTION" ;;
  search_index_name <- get_env_variable environ "COUCHBASE_SEARCH_INDEX" ;;
  try_except
    (main_try couchbase_connection_string db_username db_password bucket_name
       scope_name collection_name search_index_name widget)
    is_Exception
    main_except.

(** The names [main] reads, in the order it reads them. *)
Definition required_keys : list string :=
  ["COUCHBASE_CONNECTION_STRING"; "COUCHBASE_USERNAME"; "COUCHBASE_PASSWORD";
   "COUCHBASE_BUCKET"; "COUCHBASE_SCOPE"; "COUCHBASE_COLLECTION";
   "COUCHBASE_SEARCH_INDEX"].

(** *** The process *)

(** Exit status of the interpreter when an exception leaves the script:
    the code of a [SystemExit], 1 after the traceback of any other. *)
Definition exit_status (e : exception) : Z :=
  match e with
  | SystemExit code => code
  | CouchbaseException _ | OtherException _ _ => 1
  end.

(** The script is executed from the top once per interaction, [widgets]
    being what the text input holds at each execution.  An execution that
    returns leaves the process waiting for the next interaction ([None]
    when the interactions are used up); an exception that leaves [main]
    ends the process with its exit status. *)
Fixpoint session (environ : gmap string string) (widgets : list string)
    (w : World) : option Z * World * list event :=
  match widgets with
  | [] => (None, w, [])
  | widget :: rest =>
      match main environ widget w with
      | (Ok _, w1, t1) =>
          match session environ rest w1 with
          | (status, w2, t2) => (status, w2, (t1 ++ t2)%list)
          end
      | (Raise e, w1, t1) => (Some (exit_status e), w1, t1)
      end
  end.

(** *** Classes of events *)

(** A request to the store, the embedding service or the completion
    service, constructors of their clients included. *)
Definition is_network (ev : event) : bool :=
  match ev with
  | ClusterNew _ _ _ _ _ | ClusterWaitUntilReady _ _ _ _ | ClusterClose _ _ _
  | EmbeddingsNew _ _ _ | VectorStoreNew _ _ _ | ChatModelNew _ _ _
  | EmbedQuery _ _ _ _ | SimilaritySearch _ _ _ _ | ChatCompletion _ _ _ _ => true
  | _ => false
  end.

(** A step of the chain: embedding, retrieval or completion. *)
Definition is_chain_call (ev : event) : bool :=
  match ev with
  | EmbedQuery _ _ _ _ | SimilaritySearch _ _ _ _ | ChatCompletion _ _ _ _ => true
  | _ => false
  end.

Definition is_connect (ev : event) : bool :=
  match ev with
  | ClusterNew _ _ _ _ _ => true
  | _ => false
  end.

Definition is_close (ev : event) : bool :=
  match ev with
  | ClusterClose _ _ _ => true
  | _ => false
  end.

(** Pipeline construction: the cluster connection and the clients of the
    chain. *)
Definition is_construction (ev : event) : bool :=
  match ev with
  | ClusterNew _ _ _ _ _ | ClusterWaitUntilReady _ _ _ _
  | EmbeddingsNew _ _ _ | VectorStoreNew _ _ _ | ChatModelNew _ _ _ => true
  | _ => false
  end.

End Program.

Arguments get_env_variable {World Cluster Vector} environ var_name.
Arguments initialize_cluster {World Cluster Vector} svc connection_string username password.
Arguments as_retriever {World Cluster Vector} svc vector_store.
Arguments ChatPromptTemplate_from_template {World Cluster Vector} Document_repr tpl.
Arguments ChatModel_invoke {World Cluster Vector} svc llm.
Arguments StrOutputParser {World Cluster Vector}.
Arguments rag_inputs {World Cluster Vector} svc vector_store.
Arguments rag_chain {World Cluster Vector} svc Document_repr vector_store llm.
Arguments build_rag_chain {World Cluster Vector} svc Document_repr cluster
  bucket_name scope_name collection_name search_index_name.
Arguments main_try {World Cluster Vector} svc Document_repr.
Arguments main_except {World Cluster Vector} traceback_format_exc e.
Arguments main {World Cluster Vector} svc Document_repr traceback_format_exc environ widget.
Arguments session {World Cluster Vector} svc Document_repr traceback_format_exc
  environ widgets w.
Arguments is_network {Cluster Vector} ev.
Arguments is_chain_call {Cluster Vector} ev.
Arguments is_connect {Cluster Vector} ev.
Arguments is_close {Cluster Vector} ev.
Arguments is_construction {Cluster Vector} ev.

(** ** A concrete outside, for running the script *)

Module Demo.

(** The world counts the requests served; a cluster handle is the count at
    which it was created; a vector is a list of integers. *)
Definition services (store_up completion_up : bool) : Services nat nat (list Z) :=
  {| cluster_new := fun _ _ _ w =>
       if store_up then (Ok w, S w)
       else (Raise (CouchbaseException "unambiguous timeout"), S w);
     cluster_wait_until_ready := fun _ _ w => (Ok tt, S w);
     embeddings_new := fun _ w => (Ok tt, w);
     vector_store_new := fun _ w => (Ok tt, S w);
     chat_model_new := fun _ w => (Ok tt, w);
     embed_query := fun _ text w => (Ok [Z.of_nat (String.length text)], S w);
     similarity_search := fun _ _ w =>
       (Ok [mkDocument "Great ocean view, friendly staff" []], S w);
     chat_completion := fun _ _ w =>
       if completion_up then (Ok (mkAIMessage "Guests praise the ocean view."), S w)
       else (Raise (OtherException "RateLimitError" "quota exceeded"), S w) |}.

Definition Document_repr (d : Document) : string :=
  "Document(page_content='" +:+ page_content d +:+ "')".

Definition traceback_format_exc (e : exception) : string :=
  "Traceback (most recent call last): " +:+ exception_str e.

(** An environment with the seven settings. *)
Definition environ : gmap string string :=
  list_to_map
    [("COUCHBASE_CONNECTION_STRING", "couchbase://localhost");
     ("COUCHBASE_USERNAME", "admin");
     ("COUCHBASE_PASSWORD", "secret");
     ("COUCHBASE_BUCKET", "travel");
     ("COUCHBASE_SCOPE", "inventory");
     ("COUCHBASE_COLLECTION", "hotel");
     ("COUCHBASE_SEARCH_INDEX", "reviews")].

(** The seven settings present, every one of them the empty string. *)
Definition environ_empty_values : gmap string string :=
  list_to_map
    [("COUCHBASE_CONNECTION_STRING", EmptyString);
     ("COUCHBASE_USERNAME", EmptyString);
     ("COUCHBASE_PASSWORD", EmptyString);
     ("COUCHBASE_BUCKET", EmptyString);
     ("COUCHBASE_SCOPE", EmptyString);
     ("COUCHBASE_COLLECTION", EmptyString);
     ("COUCHBASE_SEARCH_INDEX", EmptyString)].

Definition question : string := "What do guests say about the view?".

(** An outside whose search matches nothing. *)
Definition services_no_match : Services nat nat (list Z) :=
  {| cluster_new := fun _ _ _ w => (Ok w, S w);
     cluster_wait_until_ready := fun _ _ w => (Ok tt, S w);
     embeddings_new := fun _ w => (Ok tt, w);
     vector_store_new := fun _ w => (Ok tt, S w);
     chat_model_new := fun _ w => (Ok tt, w);
     embed_query := fun _ text w => (Ok [Z.of_nat (String.length text)], S w);
     similarity_search := fun _ _ w => (Ok [], S w);
     chat_completion := fun _ _ w =>
       (Ok (mkAIMessage "I have no reviews to go on."), S w) |}.

(** A ranking of four documents: neither ascending nor descending in their
    text, and with one document twice. *)
Definition ranking : list Document :=
  [mkDocument "Pool was closed" [("hotel", "Seaside")];
   mkDocument "Great ocean view, friendly staff" [("hotel", "Seaside")];
   mkDocument "Average breakfast" [("hotel", "Harbour")];
   mkDocument "Pool was closed" [("hotel", "Seaside")]].

(** An outside whose search returns that ranking, and whose chat model
    answers with the number of requests served so far. *)
Definition services_ranked : Services nat nat (list Z) :=
  {| cluster_new := fun _ _ _ w => (Ok w, S w);
     cluster_wait_until_ready := fun _ _ w => (Ok tt, S w);
     embeddings_new := fun _ w => (Ok tt, w);
     vector_store_new := fun _ w => (Ok tt, S w);
     chat_model_new := fun _ w => (Ok tt, w);
     embed_query := fun _ text w => (Ok [Z.of_nat (String.length text)], S w);
     similarity_search := fun _ _ w => (Ok ranking, S w);
     chat_completion := fun _ _ w =>
       (Ok (mkAIMessage ("Reply after " +:+ pretty w +:+ " requests.")), S w) |}.

End Demo.

(** ** The prompt step as a function of the documents and the question *)

(** The dict the prompt receives: what [rag_inputs] returns when the
    retriever returned [docs] for [question]. *)
Definition prompt_input (docs : list Document) (question : string) : gmap string PyVal :=
  <["context" := VDocs docs]> (<["question" := VStr question]> ∅).

(** Prompt assembly: the prompt of the chain applied to that dict. *)
Definition assemble (Document_repr : Document -> string) (docs : list Document)
    (question : string) : result string :=
  prompt_format Document_repr template (prompt_input docs question).

(** The template with [context] and [question] put in the places of its two
    fields: the instruction paragraph, a blank line, the context, a blank
    line, the question line. *)
Definition spec_prompt (context question : string) : string :=
  "You are a helpful bot. If you cannot answer based on the context provided, "
  +:+ "respond with a generic answer. Answer the question as truthfully as possible "
  +:+ "using the context below:" +:+ nl +:+ nl +:+ context
  +:+ nl +:+ nl +:+ "Question: " +:+ question.

(** The trace of a run, and the events of it that open a connection. *)
Definition trace_of {A W E : Type} (run : A * W * list E) : list E := snd run.

Definition outcome_of {A W E : Type} (run : A * W * list E) : A := fst (fst run).

Definition connections_created {Cluster Vector : Type}
    (t : list (event Cluster Vector)) : nat :=
  length (List.filter is_connect t).

(** The seven settings as [main] binds them. *)
Definition settings (environ : gmap string string)
    (connection_string username password bucket scope collection index : string)
    : Prop :=
  environ !! "COUCHBASE_CONNECTION_STRING" = Some connection_string
  /\ environ !! "COUCHBASE_USERNAME" = Some username
  /\ environ !! "COUCHBASE_PASSWORD" = Some password
  /\ environ !! "COUCHBASE_BUCKET" = Some bucket
  /\ environ !! "COUCHBASE_SCOPE" = Some scope
  /\ environ !! "COUCHBASE_COLLECTION" = Some collection
  /\ environ !! "COUCHBASE_SEARCH_INDEX" = Some index.

(** The message of [get_env_variable] for a missing name. *)
Definition missing_message (var_name : string) : string :=
  "Required environment variable '" +:+ var_name +:+ "' is missing.".

(** The events of a run that stops at a missing setting. *)
Definition missing_trace {Cluster Vector : Type} (var_name : string)
    : list (event Cluster Vector) :=
  [StTitle _ _ "Hotel Recommendation System";
   StWrite _ _ "Ask a question about hotels and get recommendations based on context.";
   LogError _ _ (missing_message var_name) false;
   StError _ _ (missing_message var_name)].

(** Pipeline construction is reached in a run when its trace holds a
    construction event. *)
Definition construction_reached {Cluster Vector : Type}
    (t : list (event Cluster Vector)) : Prop :=
  Exists (fun ev => is_construction ev = true) t.

(** Every required setting present with a non-empty value. *)
Definition settings_non_empty (environ : gmap string string) : Prop :=
  forall k : string, k ∈ required_keys ->
    exists v : string, environ !! k = Some v /\ v <> EmptyString.

(** The objects [build_rag_chain] constructs. *)
Definition rag_embeddings : Embeddings := mkEmbeddings "text-embedding-3-small".

Definition rag_vector_store {Cluster : Type} (cluster : Cluster)
    (bucket_name scope_name collection_name search_index_name : string)
    : VectorStore Cluster :=
  mkVectorStore _ cluster bucket_name scope_name collection_name rag_embeddings
    "embedding" "review" search_index_name.

Definition rag_llm : ChatModel := mkChatModel 0 "gpt-4-1106-preview" true.

(** The answer as the strict sequence embed, retrieve, assemble, complete:
    each step is run on the result of the one before, and the first step
    that raises ends the sequence with its exception. *)
Definition spec_answer {World Cluster Vector : Type}
    (svc : Services World Cluster Vector) (Document_repr : Document -> string)
    (vector_store : VectorStore Cluster) (llm : ChatModel)
    (question : string) (w : World)
    : result string * World * list (event Cluster Vector) :=
  let embed := EmbedQuery _ _ (vs_embedding _ vector_store) question in
  match embed_query _ _ _ svc (vs_embedding _ vector_store) question w with
  | (Raise e, w1) => (Raise e, w1, [embed])
  | (Ok v, w1) =>
      let retrieve := SimilaritySearch _ _ vector_store v in
      match similarity_search _ _ _ svc vector_store v w1 with
      | (Raise e, w2) => (Raise e, w2, [embed; retrieve])
      | (Ok docs, w2) =>
          let prompt := spec_prompt (list_str Document_repr docs) question in
          let complete := ChatCompletion _ _ llm prompt in
          match chat_completion _ _ _ svc llm prompt w2 with
          | (Raise e, w3) => (Raise e, w3, [embed; retrieve; complete])
          | (Ok message, w3) => (Ok (content message), w3, [embed; retrieve; complete])
          end
      end
  end.

(** The two header widgets every run starts with. *)
Definition intro_text : string :=
  "Ask a question about hotels and get recommendations based on context.".

(** What [initialize_cluster] logs before it re-raises [e]. *)
Definition connect_error_log {Cluster Vector : Type} (e : exception)
    : list (event Cluster Vector) :=
  if is_CouchbaseException e then
    [LogError _ _ ("Error connecting to Couchbase cluster: " +:+ exception_str e) false]
  else [].

(** The events of the [except Exception] clause of [main] for [e]. *)
Definition handler_trace {Cluster Vector : Type}
    (traceback_format_exc : exception -> string) (e : exception)
    : list (event Cluster Vector) :=
  [StError _ _ "An error occurred while processing your request.";
   StError _ _ (traceback_format_exc e);
   LogError _ _ ("Exception occurred: " +:+ exception_str e) true].

Definition is_write {Cluster Vector : Type} (ev : event Cluster Vector) : bool :=
  match ev with
  | StWrite _ _ _ => true
  | _ => false
  end.

(** *** The first external call of a run that raises *)

Section Failures.

Variables World Cluster Vector : Type.
Variable svc : Services World Cluster Vector.
Variable Document_repr : Document -> string.
Variables cs u p b s c i : string.

(** The store accepted the connection and became ready within the wait. *)
Definition connected (w : World) (cluster : Cluster) (w' : World) : Prop :=
  exists w1 : World,
    cluster_new _ _ _ svc cs u p w = (Ok cluster, w1)
    /\ cluster_wait_until_ready _ _ _ svc cluster 5 w1 = (Ok tt, w').

(** The connection and the three clients of the chain were constructed. *)
Definition constructed (w : World) (cluster : Cluster) (w' : World) : Prop :=
  exists w1 w2 w3 : World,
    connected w cluster w1
    /\ embeddings_new _ _ _ svc rag_embeddings w1 = (Ok tt, w2)
    /\ vector_store_new _ _ _ svc (rag_vector_store cluster b s c i) w2 = (Ok tt, w3)
    /\ chat_model_new _ _ _ svc rag_llm w3 = (Ok tt, w').

(** [external_error question w e w']: in the run that starts in world [w]
    with [question] in the text input, every external call before some call
    returned, and that call raised [e], leaving the world [w']. *)
Inductive external_error (question : string) (w : World) (e : exception)
    (w' : World) : Prop :=
| connect_error :
    cluster_new _ _ _ svc cs u p w = (Raise e, w') ->
    external_error question w e w'
| ready_error (cluster : Cluster) (w1 : World) :
    cluster_new _ _ _ svc cs u p w = (Ok cluster, w1) ->
    cluster_wait_until_ready _ _ _ svc cluster 5 w1 = (Raise e, w') ->
    external_error question w e w'
| embeddings_client_error (cluster : Cluster) (w1 : World) :
    connected w cluster w1 ->
    embeddings_new _ _ _ svc rag_embeddings w1 = (Raise e, w') ->
    external_error question w e w'
| vector_store_client_error (cluster : Cluster) (w1 w2 : World) :
    connected w cluster w1 ->
    embeddings_new _ _ _ svc rag_embeddings w1 = (Ok tt, w2) ->
    vector_store_new _ _ _ svc (rag_vector_store cluster b s c i) w2 = (Raise e, w') ->
    external_error question w e w'
| chat_client_error (cluster : Cluster) (w1 w2 w3 : World) :
    connected w cluster w1 ->
    embeddings_new _ _ _ svc rag_embeddings w1 = (Ok tt, w2) ->
    vector_store_new _ _ _ svc (rag_vector_store cluster b s c i) w2 = (Ok tt, w3) ->
    chat_model_new _ _ _ svc rag_llm w3 = (Raise e, w') ->
    external_error question w e w'
| embedding_error (cluster : Cluster) (w1 : World) :
    constructed w cluster w1 ->
    question <> EmptyString ->
    embed_query _ _ _ svc rag_embeddings question w1 = (Raise e, w') ->
    external_error question w e w'
| retrieval_error (cluster : Cluster) (w1 w2 : World) (v : Vector) :
    constructed w cluster w1 ->
    question <> EmptyString ->
    embed_query _ _ _ svc rag_embeddings question w1 = (Ok v, w2) ->
    similarity_search _ _ _ svc (rag_vector_store cluster b s c i) v w2 = (Raise e, w') ->
    external_error question w e w'
| completion_error (cluster : Cluster) (w1 w2 w3 : World) (v : Vector)
    (docs : list Document) :
    constructed w cluster w1 ->
    question <> EmptyString ->
    embed_query _ _ _ svc rag_embeddings question w1 = (Ok v, w2) ->
    similarity_search _ _ _ svc (rag_vector_store cluster b s c i) v w2 = (Ok docs, w3) ->
    chat_completion _ _ _ svc rag_llm
      (spec_prompt (list_str Document_repr docs) question) w3 = (Raise e, w') ->
    external_error question w e w'.

End Failures.

Arguments connected {World Cluster Vector} svc cs u p w cluster w'.
Arguments constructed {World Cluster Vector} svc cs u p b s c i w cluster w'.
Arguments external_error {World Cluster Vector} svc Document_repr cs u p b s c i
  question w e w'.

(** Every required setting is present in the environment. *)
Definition settings_complete (environ : gmap string string) : Prop :=
  forall k : string, k ∈ required_keys -> is_Some (environ !! k).

(** The events of the [try] body of a run in which every external call
    returned: connection, clients, the text input, the three steps of the
    chain on [question], the response and the success record. *)
Definition answered_trace {Cluster Vector : Type} (Document_repr : Document -> string)
    (cs u p b s c i : string) (cluster : Cluster) (question : string)
    (v : Vector) (docs : list Document) (message : AIMessage)
    : list (event Cluster Vector) :=
  [ClusterNew _ _ cs u p;
   ClusterWaitUntilReady _ _ cluster 5;
   LogInfo _ _ "Successfully connected to Couchbase cluster.";
   EmbeddingsNew _ _ rag_embeddings;
   VectorStoreNew _ _ (rag_vector_store cluster b s c i);
   ChatModelNew _ _ rag_llm;
   StTextInput _ _ "Enter your question about hotels:";
   StSpinner _ _ "Processing your query...";
   EmbedQuery _ _ rag_embeddings question;
   SimilaritySearch _ _ (rag_vector_store cluster b s c i) v;
   ChatCompletion _ _ rag_llm (spec_prompt (list_str Document_repr docs) question);
   StWrite _ _ "Response:";
   StWrite _ _ (content message);
   LogInfo _ _ "Query processed successfully."].

(** [retrieved svc ... question w cluster v docs w']: in the run that starts
    in world [w] with [question] in the text input, the connection and the
    clients were constructed, the embedding of the question returned [v]
    and the search of the store for [v] returned [docs], leaving the world
    [w']: every call is made in the world the call before it left. *)
Definition retrieved {World Cluster Vector : Type}
    (svc : Services World Cluster Vector) (cs u p b s c i question : string)
    (w : World) (cluster : Cluster) (v : Vector) (docs : list Document)
    (w' : World) : Prop :=
  exists w1 w2 : World,
    constructed svc cs u p b s c i w cluster w1
    /\ embed_query _ _ _ svc rag_embeddings question w1 = (Ok v, w2)
    /\ similarity_search _ _ _ svc (rag_vector_store cluster b s c i) v w2
       = (Ok docs, w').

(** [answered svc ... question w cluster v docs message w']: in that run the
    chat model, called in the world the search left on the template filled
    with [docs] and [question], returned [message], leaving the world [w']. *)
Definition answered {World Cluster Vector : Type}
    (svc : Services World Cluster Vector) (Document_repr : Document -> string)
    (cs u p b s c i question : string) (w : World) (cluster : Cluster)
    (v : Vector) (docs : list Document) (message : AIMessage) (w' : World) : Prop :=
  exists w3 : World,
    retrieved svc cs u p b s c i question w cluster v docs w3
    /\ chat_completion _ _ _ svc rag_llm
         (spec_prompt (list_str Document_repr docs) question) w3
       = (Ok message, w').

(** The operations the script can ask of the outside. *)
Inductive operation : Type :=
| OpConnect
| OpWaitUntilReady
| OpClose
| OpEmbeddingsNew
| OpVectorStoreNew
| OpChatModelNew
| OpEmbedQuery
| OpSimilaritySearch
| OpChatCompletion.

(** [ev] is a request for [op]. *)
Definition is_call {Cluster Vector : Type} (op : operation)
    (ev : event Cluster Vector) : bool :=
  match op, ev with
  | OpConnect, ClusterNew _ _ _ _ _ => true
  | OpWaitUntilReady, ClusterWaitUntilReady _ _ _ _ => true
  | OpClose, ClusterClose _ _ _ => true
  | OpEmbeddingsNew, EmbeddingsNew _ _ _ => true
  | OpVectorStoreNew, VectorStoreNew _ _ _ => true
  | OpChatModelNew, ChatModelNew _ _ _ => true
  | OpEmbedQuery, EmbedQuery _ _ _ _ => true
  | OpSimilaritySearch, SimilaritySearch _ _ _ _ => true
  | OpChatCompletion, ChatCompletion _ _ _ _ => true
  | _, _ => false
  end.

(** How many requests for [op] a trace holds. *)
Definition calls_to {Cluster Vector : Type} (op : operation)
    (t : list (event Cluster Vector)) : nat :=
  length (List.filter (is_call op) t).

(** An error shown to the operator or written to the log. *)
Definition is_error_report {Cluster Vector : Type} (ev : event Cluster Vector) : bool :=
  match ev with
  | StError _ _ _ | LogError _ _ _ _ => true
  | _ => false
  end.

(** An oracle whose failures are all instances of [Exception]. *)
Definition raises_exceptions_only {W A : Type} (oracle : W -> result A * W) : Prop :=
  forall (w : W) (e : exception) (w' : W),
    oracle w = (Raise e, w') -> is_Exception e = true.

(** An outside none of whose calls raises anything but an [Exception]. *)
Definition exceptions_only {World Cluster Vector : Type}
    (svc : Services World Cluster Vector) : Prop :=
  (forall cs u p : string, raises_exceptions_only (cluster_new _ _ _ svc cs u p))
  /\ (forall (c : Cluster) (seconds : Z),
        raises_exceptions_only (cluster_wait_until_ready _ _ _ svc c seconds))
  /\ (forall emb : Embeddings, raises_exceptions_only (embeddings_new _ _ _ svc emb))
  /\ (forall vs : VectorStore Cluster,
        raises_exceptions_only (vector_store_new _ _ _ svc vs))
  /\ (forall llm : ChatModel, raises_exceptions_only (chat_model_new _ _ _ svc llm))
  /\ (forall (emb : Embeddings) (text : string),
        raises_exceptions_only (embed_query _ _ _ svc emb text))
  /\ (forall (vs : VectorStore Cluster) (v : Vector),
        raises_exceptions_only (similarity_search _ _ _ svc vs v))
  /\ (forall (llm : ChatModel) (prompt : string),
        raises_exceptions_only (chat_completion _ _ _ svc llm prompt)).

(** ** Prompt assembly *)

Lemma append_empty_r (s : string) : s +:+ EmptyString = s.
Proof.
  induction s as [|c s IH]; [reflexivity |].
  change (String c (s +:+ EmptyString) = String c s). now rewrite IH.
Qed.

Lemma assemble_spec_prompt (Document_repr : Document -> string)
    (docs : list Document) (question : string) :
  assemble Document_repr docs question
  = Ok (spec_prompt (list_str Document_repr docs) question).
Proof.
  rewrite <- (append_empty_r question) at 2.
  unfold assemble, prompt_format, prompt_input, spec_prompt.
  vm_compute. reflexivity.
Qed.

(** ** The script's properties *)

Ltac unfold_monad :=
  cbv [bind ret raise emit call try_except sys_exit pipe
       st_title st_write st_error st_spinner st_text_input
       logger_info logger_error RunnablePassthrough StrOutputParser
       ChatModel_invoke as_retriever].

Ltac in_required :=
  unfold required_keys;
  repeat first [apply list_elem_of_here | apply list_elem_of_further].

Section Properties.

Variables World Cluster Vector : Type.
Variable svc : Services World Cluster Vector.
Variable Document_repr : Document -> string.
Variable traceback_format_exc : exception -> string.

Local Abbreviation event := (event Cluster Vector).
Local Abbreviation run_main := (main svc Document_repr traceback_format_exc).
Local Abbreviation run_session := (session svc Document_repr traceback_format_exc).

(** *** Configuration *)

Lemma get_env_variable_set (environ : gmap string string) (var_name value : string)
    (w : World) :
  environ !! var_name = Some value ->
  get_env_variable (Cluster := Cluster) (Vector := Vector) environ var_name w
  = (Ok value, w, []).
Proof. intros H. unfold get_env_variable. now rewrite H. Qed.

Lemma get_env_variable_unset (environ : gmap string string) (var_name : string)
    (w : World) :
  environ !! var_name = None ->
  get_env_variable (Cluster := Cluster) (Vector := Vector) environ var_name w
  = (Raise (SystemExit 1), w,
     [LogError _ _ (missing_message var_name) false;
      StError _ _ (missing_message var_name)]).
Proof. intros H. unfold get_env_variable. now rewrite H. Qed.

(** With a required name unset, [main] stops at the first unset one. *)
Lemma main_missing_key (environ : gmap string string) (widget : string) (w : World)
    (key : string) :
  key ∈ required_keys -> environ !! key = None ->
  exists first : string,
    first ∈ required_keys /\ environ !! first = None
    /\ run_main environ widget w = (Raise (SystemExit 1), w, missing_trace first).
Proof.
  intros Hin Hnone. unfold main, missing_trace.
  destruct (environ !! "COUCHBASE_CONNECTION_STRING") as [v1|] eqn:E1;
    [| exists "COUCHBASE_CONNECTION_STRING"; split; [in_required | split; [exact E1 |]];
       unfold get_env_variable; rewrite E1; reflexivity].
  destruct (environ !! "COUCHBASE_USERNAME") as [v2|] eqn:E2;
    [| exists "COUCHBASE_USERNAME"; split; [in_required | split; [exact E2 |]];
       unfold get_env_variable; rewrite E1, E2; reflexivity].
  destruct (environ !! "COUCHBASE_PASSWORD") as [v3|] eqn:E3;
    [| exists "COUCHBASE_PASSWORD"; split; [in_required | split; [exact E3 |]];
       unfold get_env_variable; rewrite E1, E2, E3; reflexivity].
  destruct (environ !! "COUCHBASE_BUCKET") as [v4|] eqn:E4;
    [| exists "COUCHBASE_BUCKET"; split; [in_required | split; [exact E4 |]];
       unfold get_env_variable; rewrite E1, E2, E3, E4; reflexivity].
  destruct (environ !! "COUCHBASE_SCOPE") as [v5|] eqn:E5;
    [| exists "COUCHBASE_SCOPE"; split; [in_required | split; [exact E5 |]];
       unfold get_env_variable; rewrite E1, E2, E3, E4, E5; reflexivity].
  destruct (environ !! "COUCHBASE_COLLECTION") as [v6|] eqn:E6;
    [| exists "COUCHBASE_COLLECTION"; split; [in_required | split; [exact E6 |]];
       unfold get_env_variable; rewrite E1, E2, E3, E4, E5, E6; reflexivity].
  destruct (environ !! "COUCHBASE_SEARCH_INDEX") as [v7|] eqn:E7;
    [| exists "COUCHBASE_SEARCH_INDEX"; split; [in_required | split; [exact E7 |]];
       unfold get_env_variable; rewrite E1, E2, E3, E4, E5, E6, E7; reflexivity].
  exfalso. unfold required_keys in Hin.
  repeat (apply elem_of_cons in Hin as [-> | Hin]; [congruence |]).
  now apply elem_of_nil in Hin.
Qed.

(** With the seven settings, [main] is its [try] statement after the two
    header widgets. *)
Lemma main_with_settings (environ : gmap string string) (widget : string) (w : World)
    (cs u p b s c i : string) :
  settings environ cs u p b s c i ->
  run_main environ widget w =
    match try_except (main_try svc Document_repr cs u p b s c i widget)
            is_Exception (main_except traceback_format_exc) w with
    | (r, w1, t1) =>
        (r, w1,
         StTitle _ _ "Hotel Recommendation System"
         :: StWrite _ _
              "Ask a question about hotels and get recommendations based on context."
         :: t1)
    end.
Proof.
  intros (E1 & E2 & E3 & E4 & E5 & E6 & E7).
  unfold main, get_env_variable. rewrite E1, E2, E3, E4, E5, E6, E7.
  cbv [bind ret emit st_title st_write].
  destruct (try_except _ _ _ w) as [[r w1] t1]. reflexivity.
Qed.

Lemma settings_of_present (environ : gmap string string) :
  (forall k : string, k ∈ required_keys -> is_Some (environ !! k)) ->
  exists cs u p b s c i : string, settings environ cs u p b s c i.
Proof.
  intros H. unfold settings.
  destruct (H "COUCHBASE_CONNECTION_STRING") as [cs ->]; [in_required |].
  destruct (H "COUCHBASE_USERNAME") as [u ->]; [in_required |].
  destruct (H "COUCHBASE_PASSWORD") as [p ->]; [in_required |].
  destruct (H "COUCHBASE_BUCKET") as [b ->]; [in_required |].
  destruct (H "COUCHBASE_SCOPE") as [s ->]; [in_required |].
  destruct (H "COUCHBASE_COLLECTION") as [c ->]; [in_required |].
  destruct (H "COUCHBASE_SEARCH_INDEX") as [i ->]; [in_required |].
  exists cs, u, p, b, s, c, i. repeat split.
Qed.

Lemma settings_present (environ : gmap string string) (cs u p b s c i k : string) :
  settings environ cs u p b s c i -> k ∈ required_keys -> is_Some (environ !! k).
Proof.
  intros (E1 & E2 & E3 & E4 & E5 & E6 & E7) Hin. unfold required_keys in Hin.
  repeat (apply elem_of_cons in Hin as [-> | Hin]; [eauto |]).
  now apply elem_of_nil in Hin.
Qed.

(** C3: [get_env_variable] on a name that is unset logs and displays the
    message naming that name and raises [SystemExit(1)], which no
    [except Exception] clause catches and which ends the process with
    status 1; on a name that is set it returns the value, with no event. *)
Theorem get_env_variable_fail_fast (environ : gmap string string)
    (var_name : string) (w : World) :
  (environ !! var_name = None ->
   get_env_variable (Cluster := Cluster) (Vector := Vector) environ var_name w
   = (Raise (SystemExit 1), w,
      [LogError _ _ ("Required environment variable '" +:+ var_name +:+ "' is missing.")
         false;
       StError _ _ ("Required environment variable '" +:+ var_name +:+ "' is missing.")])
   /\ is_Exception (SystemExit 1) = false
   /\ exit_status (SystemExit 1) = 1)
  /\ (forall value : string,
        environ !! var_name = Some value ->
        get_env_variable (Cluster := Cluster) (Vector := Vector) environ var_name w
        = (Ok value, w, [])).
Proof.
  split.
  - intros H. split; [| split; reflexivity].
    now apply get_env_variable_unset.
  - intros value H. now apply get_env_variable_set.
Qed.

(** C4: when exactly one required setting is absent, [main] raises
    [SystemExit(1)] after the two header widgets and the error report for
    that setting; the world is untouched, the trace holds no request to the
    store, the embedding service or the completion service, and the process
    ends there with status 1 whatever interactions would follow. *)
Theorem missing_key_precedes_network (environ : gmap string string)
    (widget : string) (widgets : list string) (w : World) (key : string) :
  key ∈ required_keys ->
  environ !! key = None ->
  (forall k : string, k ∈ required_keys -> k <> key -> is_Some (environ !! k)) ->
  run_main environ widget w = (Raise (SystemExit 1), w, missing_trace key)
  /\ Forall (fun ev : event => is_network ev = false) (missing_trace key)
  /\ run_session environ (widget :: widgets) w = (Some 1, w, missing_trace key).
Proof.
  intros Hin Hnone Hothers.
  destruct (main_missing_key environ widget w key Hin Hnone)
    as (first & Hfirst & Hfnone & Hmain).
  assert (first = key) as ->.
  { destruct (decide (first = key)) as [|Hne]; [assumption |].
    destruct (Hothers first Hfirst Hne) as [v Hv]. congruence. }
  split; [exact Hmain |]. split.
  - unfold missing_trace. repeat constructor.
  - cbn [session]. now rewrite Hmain.
Qed.

(** C5, as amended: pipeline construction is reached only when every
    required setting is present in the environment, whatever its value; a
    required setting that is absent makes [main] raise [SystemExit(1)]
    without any construction event. *)
Theorem construction_requires_settings_present (environ : gmap string string)
    (widget : string) (w : World) :
  (construction_reached (trace_of (run_main environ widget w)) ->
   forall k : string, k ∈ required_keys -> is_Some (environ !! k))
  /\ (forall k : string, k ∈ required_keys -> environ !! k = None ->
      outcome_of (run_main environ widget w) = Raise (SystemExit 1)
      /\ ~ construction_reached (trace_of (run_main environ widget w))).
Proof.
  assert (Hmiss : forall k : string, k ∈ required_keys -> environ !! k = None ->
            outcome_of (run_main environ widget w) = Raise (SystemExit 1)
            /\ ~ construction_reached (trace_of (run_main environ widget w))).
  { intros k Hin Hnone.
    destruct (main_missing_key environ widget w k Hin Hnone)
      as (first & _ & _ & Hmain).
    rewrite Hmain. split; [reflexivity |].
    unfold construction_reached, trace_of, missing_trace. cbn [snd]. intros H.
    repeat (apply Exists_cons in H as [H | H]; [discriminate H |]).
    now apply Exists_nil in H. }
  split; [| exact Hmiss].
  intros Hreached k Hin.
  destruct (environ !! k) as [v|] eqn:E; [eauto |].
  destruct (Hmiss k Hin E) as [_ Hno]. contradiction.
Qed.

(** *** The chain *)

Lemma rag_inputs_run (vector_store : VectorStore Cluster) (question : string)
    (w : World) :
  rag_inputs svc vector_store question w =
    match embed_query _ _ _ svc (vs_embedding _ vector_store) question w with
    | (Raise e, w1) =>
        (Raise e, w1, [EmbedQuery _ _ (vs_embedding _ vector_store) question])
    | (Ok v, w1) =>
        match similarity_search _ _ _ svc vector_store v w1 with
        | (Raise e, w2) =>
            (Raise e, w2,
             [EmbedQuery _ _ (vs_embedding _ vector_store) question;
              SimilaritySearch _ _ vector_store v])
        | (Ok docs, w2) =>
            (Ok (prompt_input docs question), w2,
             [EmbedQuery _ _ (vs_embedding _ vector_store) question;
              SimilaritySearch _ _ vector_store v])
        end
    end.
Proof.
  unfold rag_inputs. cbn [RunnableParallel]. unfold_monad.
  destruct (embed_query _ _ _ svc _ question w) as [[v | e] w1]; [| reflexivity].
  destruct (similarity_search _ _ _ svc vector_store v w1) as [[docs | e] w2];
    reflexivity.
Qed.

Lemma rag_chain_run (vector_store : VectorStore Cluster) (llm : ChatModel)
    (question : string) (w : World) :
  rag_chain svc Document_repr vector_store llm question w
  = spec_answer svc Document_repr vector_store llm question w.
Proof.
  unfold rag_chain, spec_answer, pipe. unfold bind at 1 2 3.
  rewrite rag_inputs_run.
  destruct (embed_query _ _ _ svc _ question w) as [[v | e] w1]; [| reflexivity].
  destruct (similarity_search _ _ _ svc vector_store v w1) as [[docs | e] w2];
    [| reflexivity].
  unfold ChatPromptTemplate_from_template.
  change (prompt_format Document_repr template (prompt_input docs question))
    with (assemble Document_repr docs question).
  rewrite assemble_spec_prompt. unfold_monad.
  destruct (chat_completion _ _ _ svc llm _ w2) as [[message | e] w3]; reflexivity.
Qed.

(** C1: the function [build_rag_chain] returns answers every question, in
    every world, by the sequence embed, retrieve, assemble, complete: the
    question is embedded, the store is searched with that vector, the
    documents and the question are put into the template, the prompt goes to
    the chat model and the content of its reply is the answer.  The only
    case distinction is a step that raises, and the function keeps nothing
    from one invocation to the next: its result is a function of the
    question and of the world it is invoked in. *)
Theorem rag_invoke_sequential (cluster : Cluster) (b s c i : string)
    (w0 w1 : World) (t0 : list event)
    (rag_invoke : string -> M World Cluster Vector string) :
  build_rag_chain svc Document_repr cluster b s c i w0 = (Ok rag_invoke, w1, t0) ->
  forall (question : string) (w : World),
    rag_invoke question w
    = spec_answer svc Document_repr (rag_vector_store cluster b s c i) rag_llm
        question w.
Proof.
  unfold build_rag_chain. unfold_monad. intros Hbuild question w.
  destruct (embeddings_new _ _ _ svc _ w0) as [[[] | e] wa]; [| discriminate Hbuild].
  destruct (vector_store_new _ _ _ svc _ wa) as [[[] | e] wb]; [| discriminate Hbuild].
  destruct (chat_model_new _ _ _ svc _ wb) as [[[] | e] wc]; [| discriminate Hbuild].
  injection Hbuild as <- _ _. apply rag_chain_run.
Qed.

(** C8: when the store answers the search with [docs], the retriever
    returns [docs] itself, the dict handed to the prompt holds that same
    list under [context], and the prompt sent on is the template filled
    with the rendering of that list: nothing is reordered, dropped or
    added between the store and the prompt. *)
Theorem retriever_returns_store_order (vector_store : VectorStore Cluster)
    (llm : ChatModel) (question : string) (w w1 w2 : World) (v : Vector)
    (docs : list Document) :
  embed_query _ _ _ svc (vs_embedding _ vector_store) question w = (Ok v, w1) ->
  similarity_search _ _ _ svc vector_store v w1 = (Ok docs, w2) ->
  as_retriever svc vector_store question w
  = (Ok docs, w2,
     [EmbedQuery _ _ (vs_embedding _ vector_store) question;
      SimilaritySearch _ _ vector_store v])
  /\ outcome_of (rag_inputs svc vector_store question w)
     = Ok (prompt_input docs question)
  /\ prompt_input docs question !! "context" = Some (VDocs docs)
  /\ trace_of (rag_chain svc Document_repr vector_store llm question w)
     = [EmbedQuery _ _ (vs_embedding _ vector_store) question;
        SimilaritySearch _ _ vector_store v;
        ChatCompletion _ _ llm (spec_prompt (list_str Document_repr docs) question)].
Proof.
  intros Hembed Hsearch. repeat split.
  - unfold as_retriever. unfold_monad. now rewrite Hembed, Hsearch.
  - rewrite rag_inputs_run, Hembed, Hsearch. reflexivity.
  - rewrite rag_chain_run. unfold spec_answer. rewrite Hembed, Hsearch.
    destruct (chat_completion _ _ _ svc llm _ w2) as [[message | e] w3]; reflexivity.
Qed.

(** *** Whole runs *)

Lemma settings_or_missing (environ : gmap string string) :
  (exists cs u p b s c i : string, settings environ cs u p b s c i)
  \/ (exists k : string, k ∈ required_keys /\ environ !! k = None).
Proof.
  destruct (decide (Forall (fun k => is_Some (environ !! k)) required_keys))
    as [Hall | Hnot].
  - left. apply settings_of_present. intros k Hin.
    now apply (proj1 (Forall_forall _ _) Hall).
  - right. apply not_Forall_Exists in Hnot; [| intros k; apply _].
    apply Exists_exists in Hnot as (k & Hin & Hk).
    exists k. split; [exact Hin |].
    destruct (environ !! k) as [v|] eqn:E; [| reflexivity].
    exfalso. apply Hk. cbn. rewrite E. now exists v.
Qed.

Ltac destruct_replies :=
  repeat
    (match goal with
     | |- context [cluster_new ?W ?C ?V ?S ?a ?b ?c ?w] =>
         destruct (cluster_new W C V S a b c w) as [[? | [? | ? | ? ?]] ?] eqn:?
     | |- context [cluster_wait_until_ready ?W ?C ?V ?S ?a ?b ?w] =>
         destruct (cluster_wait_until_ready W C V S a b w)
           as [[[] | [? | ? | ? ?]] ?] eqn:?
     | |- context [embeddings_new ?W ?C ?V ?S ?a ?w] =>
         destruct (embeddings_new W C V S a w) as [[[] | [? | ? | ? ?]] ?] eqn:?
     | |- context [vector_store_new ?W ?C ?V ?S ?a ?w] =>
         destruct (vector_store_new W C V S a w) as [[[] | [? | ? | ? ?]] ?] eqn:?
     | |- context [chat_model_new ?W ?C ?V ?S ?a ?w] =>
         destruct (chat_model_new W C V S a w) as [[[] | [? | ? | ? ?]] ?] eqn:?
     | |- context [rag_chain ?S ?R ?vs ?llm ?q ?w] =>
         rewrite (rag_chain_run vs llm q w); unfold spec_answer
     | |- context [embed_query ?W ?C ?V ?S ?a ?b ?w] =>
         destruct (embed_query W C V S a b w) as [[? | [? | ? | ? ?]] ?] eqn:?
     | |- context [similarity_search ?W ?C ?V ?S ?a ?b ?w] =>
         destruct (similarity_search W C V S a b w) as [[? | [? | ? | ? ?]] ?] eqn:?
     | |- context [chat_completion ?W ?C ?V ?S ?a ?b ?w] =>
         destruct (chat_completion W C V S a b w) as [[? | [? | ? | ? ?]] ?] eqn:?
     end;
     cbv beta iota zeta delta [is_CouchbaseException is_Exception]).

Ltac unfold_main_try :=
  unfold try_except at 1;
  unfold main_try, initialize_cluster, build_rag_chain, main_except;
  unfold_monad.

Ltac no_member H :=
  repeat (apply elem_of_cons in H as [H | H];
          [first [discriminate H | injection H as ->; reflexivity] |]);
  now apply elem_of_nil in H.

(** C10: in a run whose text input holds the empty string the chain is not
    invoked: the trace holds no embedding, retrieval or completion call and
    nothing is written but the introduction line; so a run whose trace holds
    such a call had a non-empty question. *)
Theorem empty_question_skips_chain (environ : gmap string string) (w : World) :
  Forall (fun ev : event => is_chain_call ev = false)
    (trace_of (run_main environ EmptyString w))
  /\ (forall body : string,
       StWrite _ _ body ∈ trace_of (run_main environ EmptyString w) ->
       body = intro_text)
  /\ (forall widget : string,
       Exists (fun ev : event => is_chain_call ev = true)
         (trace_of (run_main environ widget w)) ->
       widget <> EmptyString).
Proof.
  assert (Hcalls : Forall (fun ev : event => is_chain_call ev = false)
                     (trace_of (run_main environ EmptyString w))
                   /\ (forall body : string,
                        StWrite _ _ body ∈ trace_of (run_main environ EmptyString w) ->
                        body = intro_text)).
  { destruct (settings_or_missing environ)
      as [(cs & u & p & b & s & c & i & Hs) | (k & Hin & Hnone)].
    - rewrite (main_with_settings environ EmptyString w cs u p b s c i Hs).
      unfold_main_try. cbn [str_bool].
      destruct_replies; unfold trace_of; cbn [snd app];
        (split; [repeat constructor | intros body H; no_member H]).
    - destruct (main_missing_key environ EmptyString w k Hin Hnone)
        as (first & _ & _ & ->).
      unfold trace_of, missing_trace; cbn [snd].
      split; [repeat constructor | intros body H; no_member H]. }
  destruct Hcalls as [Hcalls Hwrites]. split; [exact Hcalls |]. split; [exact Hwrites |].
  intros widget Hex ->.
  apply Exists_exists in Hex as (ev & Hin & Hev).
  apply (proj1 (Forall_forall _ _) Hcalls) in Hin. congruence.
Qed.

Ltac use_replies :=
  repeat
    (match goal with
     | |- context [rag_chain ?S ?R ?vs ?llm ?q ?w] =>
         rewrite (rag_chain_run vs llm q w); unfold spec_answer; cbn [vs_embedding]
     | H : ?x = (_, _) |- context [?x] => rewrite H
     end;
     cbv beta iota zeta delta [is_CouchbaseException is_Exception app]).

Lemma main_try_raise (environ : gmap string string) (cs u p b s c i widget : string)
    (w w' : World) (e : exception) (t : list event) :
  settings environ cs u p b s c i ->
  main_try svc Document_repr cs u p b s c i widget w = (Raise e, w', t) ->
  is_Exception e = true ->
  run_main environ widget w
  = (Ok tt, w',
     StTitle _ _ "Hotel Recommendation System" :: StWrite _ _ intro_text
     :: (t ++ handler_trace traceback_format_exc e)%list).
Proof.
  intros Hs Htry He. rewrite (main_with_settings environ widget w cs u p b s c i Hs).
  unfold try_except. rewrite Htry, He. reflexivity.
Qed.

(** C6: [initialize_cluster] opens the connection once and waits at most 5
    seconds for it: it returns the handle when both calls return, and
    otherwise raises the very exception the store call raised, after
    logging it when it is a [CouchbaseException]; there is no second
    attempt.  In [main] that exception reaches the [except Exception]
    clause, which displays and logs it, and the run has made one
    connection attempt. *)
Theorem initialize_cluster_connect_or_raise (cs u p : string) (w : World) :
  initialize_cluster svc cs u p w =
    match cluster_new _ _ _ svc cs u p w with
    | (Raise e, w1) => (Raise e, w1, ClusterNew _ _ cs u p :: connect_error_log e)
    | (Ok cluster, w1) =>
        match cluster_wait_until_ready _ _ _ svc cluster 5 w1 with
        | (Raise e, w2) =>
            (Raise e, w2,
             ClusterNew _ _ cs u p :: ClusterWaitUntilReady _ _ cluster 5
             :: connect_error_log e)
        | (Ok _, w2) =>
            (Ok cluster, w2,
             [ClusterNew _ _ cs u p; ClusterWaitUntilReady _ _ cluster 5;
              LogInfo _ _ "Successfully connected to Couchbase cluster."])
        end
    end
  /\ connections_created (trace_of (initialize_cluster svc cs u p w)) = 1%nat
  /\ (forall (environ : gmap string string) (b s c i widget : string)
        (e : exception) (w1 : World) (t1 : list event),
       settings environ cs u p b s c i ->
       initialize_cluster svc cs u p w = (Raise e, w1, t1) ->
       is_Exception e = true ->
       run_main environ widget w
       = (Ok tt, w1,
          StTitle _ _ "Hotel Recommendation System" :: StWrite _ _ intro_text
          :: (t1 ++ handler_trace traceback_format_exc e)%list)
       /\ connections_created (trace_of (run_main environ widget w)) = 1%nat).
Proof.
  assert (Hrun : initialize_cluster svc cs u p w =
    match cluster_new _ _ _ svc cs u p w with
    | (Raise e, w1) => (Raise e, w1, ClusterNew _ _ cs u p :: connect_error_log e)
    | (Ok cluster, w1) =>
        match cluster_wait_until_ready _ _ _ svc cluster 5 w1 with
        | (Raise e, w2) =>
            (Raise e, w2,
             ClusterNew _ _ cs u p :: ClusterWaitUntilReady _ _ cluster 5
             :: connect_error_log e)
        | (Ok _, w2) =>
            (Ok cluster, w2,
             [ClusterNew _ _ cs u p; ClusterWaitUntilReady _ _ cluster 5;
              LogInfo _ _ "Successfully connected to Couchbase cluster."])
        end
    end).
  { unfold initialize_cluster, connect_error_log. unfold_monad.
    destruct (cluster_new _ _ _ svc cs u p w) as [[cluster | e] w1].
    - destruct (cluster_wait_until_ready _ _ _ svc cluster 5 w1) as [[[] | e] w2];
        [reflexivity |].
      destruct (is_CouchbaseException e); reflexivity.
    - destruct (is_CouchbaseException e); reflexivity. }
  assert (Hone : connections_created (trace_of (initialize_cluster svc cs u p w))
                 = 1%nat).
  { rewrite Hrun. unfold connect_error_log.
    destruct (cluster_new _ _ _ svc cs u p w) as [[cluster | e] w1].
    - destruct (cluster_wait_until_ready _ _ _ svc cluster 5 w1) as [[[] | e] w2];
        [reflexivity |].
      destruct (is_CouchbaseException e); reflexivity.
    - destruct (is_CouchbaseException e); reflexivity. }
  split; [exact Hrun |]. split; [exact Hone |].
  intros environ b s c i widget e w1 t1 Hs Hinit He.
  assert (Htry : main_try svc Document_repr cs u p b s c i widget w = (Raise e, w1, t1)).
  { unfold main_try. unfold bind at 1. now rewrite Hinit. }
  rewrite (main_try_raise environ cs u p b s c i widget w w1 e t1 Hs Htry He).
  split; [reflexivity |].
  rewrite Hinit in Hone. unfold trace_of, connections_created in *. cbn [snd] in *.
  cbn [List.filter is_connect]. rewrite List.filter_app, length_app, Hone.
  reflexivity.
Qed.

(** C7: when an external call of a run raises an [Exception] [e] (the
    connection, a client constructor, the embedding, the search or the
    completion), the [try] body raises that same [e] without having written
    anything, [main] displays the generic message and the traceback of [e],
    logs [e] with its traceback and returns, and the process goes on to the
    next interaction. *)
Theorem external_error_reaches_handler (environ : gmap string string)
    (cs u p b s c i widget : string) (widgets : list string)
    (w w' : World) (e : exception) :
  settings environ cs u p b s c i ->
  external_error svc Document_repr cs u p b s c i widget w e w' ->
  is_Exception e = true ->
  exists t_try : list event,
    main_try svc Document_repr cs u p b s c i widget w = (Raise e, w', t_try)
    /\ Forall (fun ev : event => is_write ev = false) t_try
    /\ run_main environ widget w
       = (Ok tt, w',
          StTitle _ _ "Hotel Recommendation System" :: StWrite _ _ intro_text
          :: (t_try ++ handler_trace traceback_format_exc e)%list)
    /\ run_session environ (widget :: widgets) w
       = match run_session environ widgets w' with
         | (status, w2, t2) =>
             (status, w2,
              ((StTitle _ _ "Hotel Recommendation System" :: StWrite _ _ intro_text
                :: (t_try ++ handler_trace traceback_format_exc e)%list) ++ t2)%list)
         end.
Proof.
  intros Hs Herr He.
  assert (Htry : exists t_try : list event,
             main_try svc Document_repr cs u p b s c i widget w = (Raise e, w', t_try)
             /\ Forall (fun ev : event => is_write ev = false) t_try).
  { unfold main_try, initialize_cluster, build_rag_chain. unfold_monad.
    destruct Herr;
      repeat match goal with
        | H : constructed _ _ _ _ _ _ _ _ _ _ _ |- _ =>
            destruct H as (? & ? & ? & ? & ? & ? & ?)
        | H : connected _ _ _ _ _ _ _ |- _ => destruct H as (? & ? & ?)
        end;
      unfold rag_vector_store, rag_embeddings, rag_llm in *;
      try (destruct widget as [| ch rest]; [congruence |]; cbn [str_bool]);
      destruct e as [code | msg | cls msg]; try discriminate He;
      use_replies;
      (eexists; split; [reflexivity | repeat constructor]). }
  destruct Htry as (t_try & Htry & Hwrites).
  exists t_try. split; [exact Htry |]. split; [exact Hwrites |].
  pose proof (main_try_raise environ cs u p b s c i widget w w' e t_try Hs Htry He)
    as Hmain.
  split; [exact Hmain |].
  cbn [session]. rewrite Hmain. reflexivity.
Qed.

Lemma connections_created_app (t1 t2 : list event) :
  connections_created (t1 ++ t2) = (connections_created t1 + connections_created t2)%nat.
Proof. unfold connections_created. now rewrite List.filter_app, length_app. Qed.

Ltac in_list :=
  repeat first [apply list_elem_of_here | apply list_elem_of_further].

Ltac search_member H :=
  repeat (apply elem_of_cons in H as [H | H];
          [first [discriminate H
                 | injection H as -> ->; eexists _, _, _, _;
                   split; [in_list | eassumption]] |]);
  now apply elem_of_nil in H.

(** What one execution of [main] does with the store connection. *)
Lemma main_connection (environ : gmap string string) (widget : string) (w : World) :
  (connections_created (trace_of (run_main environ widget w)) <= 1)%nat
  /\ Forall (fun ev : event => is_close ev = false)
       (trace_of (run_main environ widget w))
  /\ (forall (vs : VectorStore Cluster) (v : Vector),
       SimilaritySearch _ _ vs v ∈ trace_of (run_main environ widget w) ->
       exists (cs u p : string) (w1 : World),
         ClusterNew _ _ cs u p ∈ trace_of (run_main environ widget w)
         /\ cluster_new _ _ _ svc cs u p w = (Ok (vs_cluster _ vs), w1))
  /\ (settings_complete environ ->
      connections_created (trace_of (run_main environ widget w)) = 1%nat).
Proof.
  destruct (settings_or_missing environ)
    as [(cs & u & p & b & s & c & i & Hs) | (k & Hin & Hnone)].
  - rewrite (main_with_settings environ widget w cs u p b s c i Hs).
    unfold_main_try. destruct (str_bool widget);
      destruct_replies; unfold trace_of; cbn [snd app];
      (split; [unfold connections_created; cbn [List.filter is_connect length]; lia |];
       split; [repeat constructor |];
       split; [intros vs0 v0 H; search_member H | intros _; reflexivity]).
  - destruct (main_missing_key environ widget w k Hin Hnone)
      as (first & _ & _ & ->).
    unfold trace_of, missing_trace; cbn [snd].
    split; [unfold connections_created; cbn [List.filter is_connect length]; lia |].
    split; [repeat constructor |].
    split; [intros vs0 v0 H; search_member H |].
    intros Hall. destruct (Hall k Hin) as [v Hv]. congruence.
Qed.


(** *** The prompt *)

(** C2, as amended: prompt assembly is a function of the documents and the
    question, with no effect: its result is the template with the Python
    string of the document list in the place of the context and the
    question in the place of the question, whatever braces either contains;
    that string is the two brackets for the empty list, so the context
    section of the prompt is then the two brackets and the rest of the
    template is intact. *)
Theorem assemble_renders_document_list (docs : list Document) (question : string) :
  assemble Document_repr docs question
  = Ok (spec_prompt (list_str Document_repr docs) question)
  /\ assemble Document_repr [] question = Ok (spec_prompt "[]" question)
  /\ ChatPromptTemplate_from_template (World := World) (Cluster := Cluster)
       (Vector := Vector) Document_repr template (prompt_input docs question)
     = ret (spec_prompt (list_str Document_repr docs) question).
Proof.
  split; [apply assemble_spec_prompt |].
  split; [apply (assemble_spec_prompt Document_repr []) |].
  unfold ChatPromptTemplate_from_template.
  change (prompt_format Document_repr template (prompt_input docs question))
    with (assemble Document_repr docs question).
  now rewrite assemble_spec_prompt.
Qed.

(** *** Further properties of the configuration phase *)

(** X1: [main] reads the settings in a fixed order and stops at the first
    one that is unset: when every name before [key] in that order is set and
    [key] is not, the run reports [key] and only [key], whatever the later
    names hold, and raises [SystemExit(1)] with the world untouched. *)
Theorem first_missing_key_reported (environ : gmap string string)
    (widget : string) (w : World) (before after : list string) (key : string) :
  required_keys = (before ++ key :: after)%list ->
  Forall (fun k : string => is_Some (environ !! k)) before ->
  environ !! key = None ->
  run_main environ widget w = (Raise (SystemExit 1), w, missing_trace key).
Proof.
  intros Hreq Hbefore Hnone. unfold required_keys in Hreq.
  unfold main, missing_trace, get_env_variable.
  repeat
    (destruct before as [| k before]; cbn [app] in Hreq;
     [injection Hreq as <- _; rewrite Hnone; reflexivity
     | injection Hreq as <- Hreq;
       apply Forall_cons in Hbefore as [[? ->] Hbefore]]).
  destruct before; discriminate Hreq.
Qed.

(** *** Further properties of the chain and of its construction *)

(** X2: [build_rag_chain] constructs the embedding client, then the vector
    store on the given cluster and names, then the chat model; the first
    constructor that raises ends it with that exception and the later
    clients are not constructed; when all three return, the result is the
    chain over that vector store and that chat model.  Building never
    embeds, searches or completes. *)
Theorem build_rag_chain_constructs_in_order (cluster : Cluster)
    (b s c i : string) (w : World) :
  build_rag_chain svc Document_repr cluster b s c i w =
    match embeddings_new _ _ _ svc rag_embeddings w with
    | (Raise e, w1) => (Raise e, w1, [EmbeddingsNew _ _ rag_embeddings])
    | (Ok _, w1) =>
        match vector_store_new _ _ _ svc (rag_vector_store cluster b s c i) w1 with
        | (Raise e, w2) =>
            (Raise e, w2,
             [EmbeddingsNew _ _ rag_embeddings;
              VectorStoreNew _ _ (rag_vector_store cluster b s c i)])
        | (Ok _, w2) =>
            match chat_model_new _ _ _ svc rag_llm w2 with
            | (Raise e, w3) =>
                (Raise e, w3,
                 [EmbeddingsNew _ _ rag_embeddings;
                  VectorStoreNew _ _ (rag_vector_store cluster b s c i);
                  ChatModelNew _ _ rag_llm])
            | (Ok _, w3) =>
                (Ok (rag_chain svc Document_repr (rag_vector_store cluster b s c i)
                       rag_llm), w3,
                 [EmbeddingsNew _ _ rag_embeddings;
                  VectorStoreNew _ _ (rag_vector_store cluster b s c i);
                  ChatModelNew _ _ rag_llm])
            end
        end
    end
  /\ Forall (fun ev : event => is_chain_call ev = false)
       (trace_of (build_rag_chain svc Document_repr cluster b s c i w)).
Proof.
  unfold build_rag_chain, rag_embeddings, rag_vector_store, rag_llm, trace_of.
  unfold_monad.
  destruct (embeddings_new _ _ _ svc _ w) as [[[] | e] w1];
    [| split; [reflexivity | repeat constructor]].
  destruct (vector_store_new _ _ _ svc _ w1) as [[[] | e] w2];
    [| split; [reflexivity | repeat constructor]].
  destruct (chat_model_new _ _ _ svc _ w2) as [[[] | e] w3];
    (split; [reflexivity | repeat constructor]).
Qed.

(** X3: a search that matches nothing is not an error: when the store
    returns the empty list, the chain still calls the chat model, with the
    two brackets as the context of the prompt, and its result is the
    result of that call. *)
Theorem empty_retrieval_still_completes (vector_store : VectorStore Cluster)
    (llm : ChatModel) (question : string) (w w1 w2 : World) (v : Vector) :
  embed_query _ _ _ svc (vs_embedding _ vector_store) question w = (Ok v, w1) ->
  similarity_search _ _ _ svc vector_store v w1 = (Ok [], w2) ->
  rag_chain svc Document_repr vector_store llm question w =
    match chat_completion _ _ _ svc llm (spec_prompt "[]" question) w2 with
    | (Raise e, w3) =>
        (Raise e, w3,
         [EmbedQuery _ _ (vs_embedding _ vector_store) question;
          SimilaritySearch _ _ vector_store v;
          ChatCompletion _ _ llm (spec_prompt "[]" question)])
    | (Ok message, w3) =>
        (Ok (content message), w3,
         [EmbedQuery _ _ (vs_embedding _ vector_store) question;
          SimilaritySearch _ _ vector_store v;
          ChatCompletion _ _ llm (spec_prompt "[]" question)])
    end.
Proof.
  intros Hembed Hsearch. rewrite rag_chain_run. unfold spec_answer.
  rewrite Hembed, Hsearch. reflexivity.
Qed.

(** *** Further properties of whole runs *)

(** X4: when the settings are present, the question is not empty and every
    external call returns, [main] returns after the header, the
    connection, the three clients, the text input, the spinner, the three
    steps of the chain on the question, the line [Response:], the content of
    the model's reply and the success record, in that order; the world is
    the one the completion left. *)
Theorem answered_question_run (environ : gmap string string)
    (cs u p b s c i question : string) (w w1 w2 w3 w4 : World)
    (cluster : Cluster) (v : Vector) (docs : list Document) (message : AIMessage) :
  settings environ cs u p b s c i ->
  question <> EmptyString ->
  constructed svc cs u p b s c i w cluster w1 ->
  embed_query _ _ _ svc rag_embeddings question w1 = (Ok v, w2) ->
  similarity_search _ _ _ svc (rag_vector_store cluster b s c i) v w2 = (Ok docs, w3) ->
  chat_completion _ _ _ svc rag_llm
    (spec_prompt (list_str Document_repr docs) question) w3 = (Ok message, w4) ->
  run_main environ question w
  = (Ok tt, w4,
     StTitle _ _ "Hotel Recommendation System" :: StWrite _ _ intro_text
     :: answered_trace Document_repr cs u p b s c i cluster question v docs message).
Proof.
  intros Hs Hq (wa & wb & wc & (wd & Hnew & Hready) & Hemb & Hvs & Hllm)
    Hembed Hsearch Hcomplete.
  rewrite (main_with_settings environ question w cs u p b s c i Hs).
  unfold answered_trace. unfold_main_try.
  unfold rag_vector_store, rag_embeddings, rag_llm in *.
  destruct question as [| ch rest]; [congruence |]. cbn [str_bool].
  use_replies. reflexivity.
Qed.

Ltac member_facts H :=
  repeat (apply elem_of_cons in H as [H | H];
          [first [discriminate H
                 | injection H; intros; subst; cbn;
                   repeat split; first [assumption | reflexivity]] |]);
  now apply elem_of_nil in H.

Ltac run_cases environ widget w :=
  let Hs := fresh "Hs" in
  destruct (settings_or_missing environ)
    as [(? & ? & ? & ? & ? & ? & ? & Hs) | (? & ? & ?)];
  [ rewrite (main_with_settings environ widget w _ _ _ _ _ _ _ Hs);
    destruct Hs as (? & ? & ? & ? & ? & ? & ?);
    unfold_main_try; destruct (str_bool widget) eqn:?;
    destruct_replies; unfold trace_of, outcome_of; cbn [fst snd app]
  | match goal with
    | Hin : ?k ∈ required_keys, Hnone : environ !! ?k = None |- _ =>
        destruct (main_missing_key environ widget w k Hin Hnone)
          as (? & ? & ? & ->);
        unfold trace_of, outcome_of, missing_trace; cbn [fst snd]
    end ].

(** X5: whatever a run does, what it sends out is what the environment
    holds: a connection is opened only with the connection string, user
    name and password of the environment, the wait for readiness is 5
    seconds, the vector store is built on the bucket, scope, collection and
    index of the environment with the keys [embedding] and [review], and
    the two model clients are the fixed ones. *)
Theorem settings_reach_the_clients (environ : gmap string string)
    (widget : string) (w : World) :
  (forall cs u p : string,
     ClusterNew _ _ cs u p ∈ trace_of (run_main environ widget w) ->
     environ !! "COUCHBASE_CONNECTION_STRING" = Some cs
     /\ environ !! "COUCHBASE_USERNAME" = Some u
     /\ environ !! "COUCHBASE_PASSWORD" = Some p)
  /\ (forall (c : Cluster) (seconds : Z),
        ClusterWaitUntilReady _ _ c seconds ∈ trace_of (run_main environ widget w) ->
        seconds = 5)
  /\ (forall vs : VectorStore Cluster,
        VectorStoreNew _ _ vs ∈ trace_of (run_main environ widget w) ->
        environ !! "COUCHBASE_BUCKET" = Some (vs_bucket_name _ vs)
        /\ environ !! "COUCHBASE_SCOPE" = Some (vs_scope_name _ vs)
        /\ environ !! "COUCHBASE_COLLECTION" = Some (vs_collection_name _ vs)
        /\ environ !! "COUCHBASE_SEARCH_INDEX" = Some (vs_index_name _ vs)
        /\ vs_embedding_key _ vs = "embedding"
        /\ vs_text_key _ vs = "review"
        /\ vs_embedding _ vs = mkEmbeddings "text-embedding-3-small")
  /\ (forall emb : Embeddings,
        EmbeddingsNew _ _ emb ∈ trace_of (run_main environ widget w) ->
        emb = mkEmbeddings "text-embedding-3-small")
  /\ (forall llm : ChatModel,
        ChatModelNew _ _ llm ∈ trace_of (run_main environ widget w) ->
        llm = mkChatModel 0 "gpt-4-1106-preview" true).
Proof.
  run_cases environ widget w;
    (split; [intros cs0 u0 p0 Hmem; member_facts Hmem |];
     split; [intros c0 secs Hmem; member_facts Hmem |];
     split; [intros vs0 Hmem; member_facts Hmem |];
     split; [intros emb0 Hmem; member_facts Hmem | intros llm0 Hmem; member_facts Hmem]).
Qed.

(** X6: nothing is retried: in one execution of [main] each operation of
    the outside (connect, wait, the three constructors, embed, search,
    complete) is requested at most once, and close never. *)
Theorem no_operation_is_repeated (environ : gmap string string)
    (widget : string) (w : World) (op : operation) :
  (calls_to op (trace_of (run_main environ widget w)) <= 1)%nat
  /\ calls_to OpClose (trace_of (run_main environ widget w)) = 0%nat.
Proof.
  run_cases environ widget w;
    (split; [destruct op; unfold calls_to; cbn [List.filter is_call length]; lia
            | reflexivity]).
Qed.

Ltac prove_settings := repeat split; eassumption.

Ltac prove_constructed :=
  do 3 eexists; split; [eexists; split; eassumption |]; repeat split; eassumption.

Ltac prove_retrieved :=
  eexists _, _; split; [prove_constructed |]; split; eassumption.

Ltac prove_answered :=
  eexists; split; [prove_retrieved | eassumption].

(** X7: the record [Query processed successfully.] is written only in a run
    that returned, had a non-empty question, and neither displayed nor
    logged any error; in the trace of such a run the line [Response:] is
    written after the completion call, and the run is the whole answered
    run: the chat model, called in the world the run's search left,
    returned the reply that is displayed. *)
Theorem success_record_excludes_errors (environ : gmap string string)
    (widget : string) (w : World) :
  LogInfo _ _ "Query processed successfully." ∈ trace_of (run_main environ widget w) ->
  outcome_of (run_main environ widget w) = Ok tt
  /\ Forall (fun ev : event => is_error_report ev = false)
       (trace_of (run_main environ widget w))
  /\ widget <> EmptyString
  /\ (exists (before between after : list event) (llm : ChatModel) (prompt : string),
        trace_of (run_main environ widget w)
        = (before ++ ChatCompletion _ _ llm prompt
             :: between ++ StWrite _ _ "Response:" :: after)%list)
  /\ (exists (cs u p b s c i : string) (cluster : Cluster) (v : Vector)
             (docs : list Document) (message : AIMessage) (w' : World),
        settings environ cs u p b s c i
        /\ answered svc Document_repr cs u p b s c i widget w cluster v docs
             message w'
        /\ run_main environ widget w
           = (Ok tt, w',
              StTitle _ _ "Hotel Recommendation System" :: StWrite _ _ intro_text
              :: answered_trace Document_repr cs u p b s c i cluster widget v docs
                   message)).
Proof.
  run_cases environ widget w; intros Hmem;
    repeat (apply elem_of_cons in Hmem as [Hmem | Hmem];
            [first [discriminate Hmem
                   | clear Hmem; split; [reflexivity |];
                     split; [repeat constructor |];
                     split; [intros ->; discriminate |];
                     split;
                     [ eexists [_; _; _; _; _; _; _; _; _; _; _; _], [], _, _, _;
                       reflexivity
                     | do 12 eexists;
                       split; [prove_settings |];
                       split; [prove_answered | reflexivity] ]] |]);
    now apply elem_of_nil in Hmem.
Qed.

(** X8: the text input is rendered exactly in the runs in which the
    settings are present and the connection and the three clients were
    constructed: with a setting missing or a constructor failing, the
    operator is shown no input. *)
Theorem text_input_iff_constructed (environ : gmap string string)
    (widget : string) (w : World) :
  StTextInput _ _ "Enter your question about hotels:"
    ∈ trace_of (run_main environ widget w)
  <-> exists (cs u p b s c i : string) (cluster : Cluster) (w1 : World),
        settings environ cs u p b s c i
        /\ constructed svc cs u p b s c i w cluster w1.
Proof.
  split.
  - run_cases environ widget w; intros Hmem;
      repeat (apply elem_of_cons in Hmem as [Hmem | Hmem];
              [first [discriminate Hmem
                     | clear Hmem; do 9 eexists;
                       split; [repeat split; eassumption |];
                       do 3 eexists;
                       split; [eexists; split; eassumption |];
                       repeat split; eassumption] |]);
      now apply elem_of_nil in Hmem.
  - intros (cs & u & p & b & s & c & i & cluster & w1 & Hs
            & (wa & wb & wc & (wd & Hnew & Hready) & Hemb & Hvs & Hllm)).
    rewrite (main_with_settings environ widget w cs u p b s c i Hs).
    unfold_main_try. unfold rag_vector_store, rag_embeddings, rag_llm in *.
    use_replies.
    destruct (str_bool widget); destruct_replies;
      unfold trace_of; cbn [snd app]; in_list.
Qed.

(** X9: no [Exception] leaves [main]: an exception with which a run of
    [main] ends is not an instance of [Exception]. *)
Theorem no_exception_escapes_main (environ : gmap string string)
    (widget : string) (w : World) (e : exception) :
  outcome_of (run_main environ widget w) = Raise e ->
  is_Exception e = false.
Proof.
  run_cases environ widget w; intros Hout;
    first [discriminate Hout | injection Hout as <-; reflexivity].
Qed.

(** X10: when the settings are present and the outside raises nothing but
    instances of [Exception], every execution of [main] returns, and the
    process is still running after any number of interactions. *)
Theorem service_errors_never_end_the_process (environ : gmap string string) :
  exceptions_only svc ->
  settings_complete environ ->
  (forall (widget : string) (w : World),
     outcome_of (run_main environ widget w) = Ok tt)
  /\ (forall (widgets : list string) (w : World),
        outcome_of (run_session environ widgets w) = None).
Proof.
  intros (Ho1 & Ho2 & Ho3 & Ho4 & Ho5 & Ho6 & Ho7 & Ho8) Hall.
  unfold raises_exceptions_only in *.
  assert (Hmain : forall (widget : string) (w : World),
            outcome_of (run_main environ widget w) = Ok tt).
  { intros widget w.
    run_cases environ widget w;
      try reflexivity;
      try (match goal with
           | H : _ = (Raise (SystemExit _), _) |- _ =>
               first [apply Ho1 in H | apply Ho2 in H | apply Ho3 in H | apply Ho4 in H
                     | apply Ho5 in H | apply Ho6 in H | apply Ho7 in H | apply Ho8 in H];
               discriminate H
           end).
    match goal with
    | Hin : ?k ∈ required_keys, Hnone : environ !! ?k = None |- _ =>
        destruct (Hall k Hin) as [v Hv]; congruence
    end. }
  split; [exact Hmain |].
  intros widgets. induction widgets as [| widget widgets IH]; intros w.
  - reflexivity.
  - cbn [session]. specialize (Hmain widget w).
    destruct (run_main environ widget w) as [[[[] | e] w1] t1];
      [| discriminate Hmain].
    specialize (IH w1). destruct (run_session environ widgets w1) as [[st w2] t2].
    exact IH.
Qed.

(** X11: every run first renders the title and the introduction, before it
    reads any setting: they are the first two events of the trace whatever
    the environment, the question and the outside. *)
Theorem header_is_rendered_first (environ : gmap string string)
    (widget : string) (w : World) :
  exists rest : list event,
    trace_of (run_main environ widget w)
    = StTitle _ _ "Hotel Recommendation System"
      :: StWrite _ _
           "Ask a question about hotels and get recommendations based on context."
      :: rest.
Proof.
  run_cases environ widget w; eexists; reflexivity.
Qed.

(** X12: an error is displayed exactly when an error is logged: no run shows
    an error message without a log record of level error, and none logs
    such a record without showing a message. *)
Theorem errors_displayed_iff_logged (environ : gmap string string)
    (widget : string) (w : World) :
  (exists body : string, StError _ _ body ∈ trace_of (run_main environ widget w))
  <-> (exists (msg : string) (exc_info : bool),
         LogError _ _ msg exc_info ∈ trace_of (run_main environ widget w)).
Proof.
  run_cases environ widget w;
    (split;
     [ intros (shown & Hmem);
       repeat (apply elem_of_cons in Hmem as [Hmem | Hmem];
               [first [discriminate Hmem | clear Hmem; eexists _, _; in_list] |]);
       now apply elem_of_nil in Hmem
     | intros (logged & with_exc & Hmem);
       repeat (apply elem_of_cons in Hmem as [Hmem | Hmem];
               [first [discriminate Hmem | clear Hmem; eexists; in_list] |]);
       now apply elem_of_nil in Hmem ]).
Qed.

(** X13: the question goes out as it was typed: the text sent to the
    embedding service is the content of the text input, and a prompt sent
    to the chat model is the template filled with that same content and
    with the documents the search of that run returned: the search made,
    after the construction from the run's initial world and the embedding
    of the question, in the world the embedding left. *)
Theorem question_is_sent_verbatim (environ : gmap string string)
    (widget : string) (w : World) :
  (forall (emb : Embeddings) (text : string),
     EmbedQuery _ _ emb text ∈ trace_of (run_main environ widget w) ->
     text = widget)
  /\ (forall (llm : ChatModel) (prompt : string),
        ChatCompletion _ _ llm prompt ∈ trace_of (run_main environ widget w) ->
        exists (cs u p b s c i : string) (cluster : Cluster) (v : Vector)
               (docs : list Document) (w3 : World),
          settings environ cs u p b s c i
          /\ retrieved svc cs u p b s c i widget w cluster v docs w3
          /\ SimilaritySearch _ _ (rag_vector_store cluster b s c i) v
               ∈ trace_of (run_main environ widget w)
          /\ llm = rag_llm
          /\ prompt = spec_prompt (list_str Document_repr docs) widget).
Proof.
  run_cases environ widget w;
    (split;
     [ intros emb0 text0 Hmem;
       repeat (apply elem_of_cons in Hmem as [Hmem | Hmem];
               [first [discriminate Hmem | injection Hmem as _ ->; reflexivity] |]);
       now apply elem_of_nil in Hmem
     | intros llm0 prompt0 Hmem;
       repeat (apply elem_of_cons in Hmem as [Hmem | Hmem];
               [first [discriminate Hmem
                      | injection Hmem as -> ->; do 11 eexists;
                        split; [prove_settings |];
                        split; [prove_retrieved |];
                        split; [in_list |];
                        split; reflexivity] |]);
       now apply elem_of_nil in Hmem ]).
Qed.

(** X14: nothing is written to the page but the introduction, the line
    [Response:] and the content of the reply the chat model returned in
    that run: the reply to the call made, after the run's construction,
    embedding and search, in the world the search left, on the template
    filled with the documents of that search.  Neither a retrieved document
    nor the prompt is displayed. *)
Theorem only_the_reply_is_written (environ : gmap string string)
    (widget : string) (w : World) (body : string) :
  StWrite _ _ body ∈ trace_of (run_main environ widget w) ->
  body = intro_text
  \/ body = "Response:"
  \/ (exists (cs u p b s c i : string) (cluster : Cluster) (v : Vector)
             (docs : list Document) (message : AIMessage) (w' : World),
        settings environ cs u p b s c i
        /\ answered svc Document_repr cs u p b s c i widget w cluster v docs
             message w'
        /\ ChatCompletion _ _ rag_llm
             (spec_prompt (list_str Document_repr docs) widget)
             ∈ trace_of (run_main environ widget w)
        /\ body = content message).
Proof.
  run_cases environ widget w; intros Hmem;
    repeat (apply elem_of_cons in Hmem as [Hmem | Hmem];
            [first [discriminate Hmem
                   | injection Hmem as ->;
                     first [left; reflexivity
                           | right; left; reflexivity
                           | right; right; do 12 eexists;
                             split; [prove_settings |];
                             split; [prove_answered |];
                             split; [in_list | reflexivity]]] |]);
    now apply elem_of_nil in Hmem.
Qed.

End Properties.

(** ** The script on the concrete outside *)

Module Runs.

Abbreviation up := (Demo.services true true).
Abbreviation completion_down := (Demo.services true false).
Abbreviation store_down := (Demo.services false true).

Lemma demo_settings :
  settings Demo.environ "couchbase://localhost" "admin" "secret" "travel"
    "inventory" "hotel" "reviews".
Proof. unfold settings. repeat split; vm_compute; reflexivity. Defined.

Lemma demo_settings_complete : settings_complete Demo.environ.
Proof. intros k Hin. exact (settings_present _ _ _ _ _ _ _ _ _ demo_settings Hin). Defined.

End Runs.

Lemma rag_invoke_sequential_witness :
  rag_chain Runs.up Demo.Document_repr
    (rag_vector_store 0%nat "travel" "inventory" "hotel" "reviews") rag_llm
    Demo.question 3%nat
  = spec_answer Runs.up Demo.Document_repr
      (rag_vector_store 0%nat "travel" "inventory" "hotel" "reviews") rag_llm
      Demo.question 3%nat.
Proof.
  apply (rag_invoke_sequential nat nat (list Z) Runs.up Demo.Document_repr
           0%nat "travel" "inventory" "hotel" "reviews" 2%nat 3%nat
           [EmbeddingsNew _ _ rag_embeddings;
            VectorStoreNew _ _
              (rag_vector_store 0%nat "travel" "inventory" "hotel" "reviews");
            ChatModelNew _ _ rag_llm]).
  reflexivity.
Defined.

Lemma assemble_empty_list_counterexample :
  ~ (assemble Demo.Document_repr [] Demo.question
     = Ok (spec_prompt EmptyString Demo.question)).
Proof. intros H. vm_compute in H. discriminate H. Qed.

Lemma get_env_variable_fail_fast_witness :
  get_env_variable (Cluster := nat) (Vector := list Z)
    (delete "COUCHBASE_BUCKET" Demo.environ) "COUCHBASE_BUCKET" 0%nat
  = (Raise (SystemExit 1), 0%nat,
     [LogError _ _ "Required environment variable 'COUCHBASE_BUCKET' is missing." false;
      StError _ _ "Required environment variable 'COUCHBASE_BUCKET' is missing."])
  /\ get_env_variable (Cluster := nat) (Vector := list Z)
       Demo.environ "COUCHBASE_BUCKET" 0%nat
     = (Ok "travel", 0%nat, []).
Proof.
  split.
  - apply (get_env_variable_fail_fast nat nat (list Z)
             (delete "COUCHBASE_BUCKET" Demo.environ) "COUCHBASE_BUCKET" 0%nat).
    vm_compute. reflexivity.
  - apply (get_env_variable_fail_fast nat nat (list Z)
             Demo.environ "COUCHBASE_BUCKET" 0%nat).
    vm_compute. reflexivity.
Defined.

Lemma missing_key_precedes_network_witness :
  main Runs.up Demo.Document_repr Demo.traceback_format_exc
    (delete "COUCHBASE_BUCKET" Demo.environ) Demo.question 0%nat
  = (Raise (SystemExit 1), 0%nat, missing_trace "COUCHBASE_BUCKET")
  /\ session Runs.up Demo.Document_repr Demo.traceback_format_exc
       (delete "COUCHBASE_BUCKET" Demo.environ) [Demo.question; Demo.question] 0%nat
     = (Some 1, 0%nat, missing_trace "COUCHBASE_BUCKET").
Proof.
  assert (Hin : "COUCHBASE_BUCKET" ∈ required_keys) by in_required.
  assert (Hnone : delete "COUCHBASE_BUCKET" Demo.environ !! "COUCHBASE_BUCKET" = None)
    by (vm_compute; reflexivity).
  assert (Hothers : forall k : string, k ∈ required_keys -> k <> "COUCHBASE_BUCKET" ->
            is_Some (delete "COUCHBASE_BUCKET" Demo.environ !! k)).
  { intros k Hk Hne. unfold required_keys in Hk.
    repeat (apply elem_of_cons in Hk as [-> | Hk];
            [first [congruence | vm_compute; eexists; reflexivity] |]).
    now apply elem_of_nil in Hk. }
  destruct (missing_key_precedes_network nat nat (list Z) Runs.up
              Demo.Document_repr Demo.traceback_format_exc
              (delete "COUCHBASE_BUCKET" Demo.environ) Demo.question
              [Demo.question] 0%nat "COUCHBASE_BUCKET" Hin Hnone Hothers)
    as (Hmain & _ & Hsession).
  split; [exact Hmain | exact Hsession].
Defined.

Lemma empty_settings_reach_construction :
  ~ (construction_reached
       (trace_of (main Runs.up Demo.Document_repr Demo.traceback_format_exc
                    Demo.environ_empty_values EmptyString 0%nat)) ->
     settings_non_empty Demo.environ_empty_values).
Proof.
  intros H.
  assert (Hreached : construction_reached
            (trace_of (main Runs.up Demo.Document_repr Demo.traceback_format_exc
                         Demo.environ_empty_values EmptyString 0%nat))).
  { unfold construction_reached. vm_compute.
    apply Exists_cons_tl, Exists_cons_tl, Exists_cons_hd. reflexivity. }
  destruct (H Hreached "COUCHBASE_BUCKET") as (v & Hv & Hne); [in_required |].
  vm_compute in Hv. injection Hv as <-. now apply Hne.
Qed.

Lemma construction_requires_settings_present_witness :
  is_Some (Demo.environ !! "COUCHBASE_BUCKET")
  /\ outcome_of (main Runs.up Demo.Document_repr Demo.traceback_format_exc
                  (delete "COUCHBASE_BUCKET" Demo.environ) Demo.question 0%nat)
     = Raise (SystemExit 1).
Proof.
  split.
  - apply (construction_requires_settings_present nat nat (list Z) Runs.up
             Demo.Document_repr Demo.traceback_format_exc
             Demo.environ Demo.question 0%nat); [| in_required].
    unfold construction_reached. vm_compute.
    apply Exists_cons_tl, Exists_cons_tl, Exists_cons_hd. reflexivity.
  - apply (construction_requires_settings_present nat nat (list Z) Runs.up
             Demo.Document_repr Demo.traceback_format_exc
             (delete "COUCHBASE_BUCKET" Demo.environ) Demo.question 0%nat)
      with (k := "COUCHBASE_BUCKET"); [in_required | vm_compute; reflexivity].
Defined.

Lemma initialize_cluster_connect_or_raise_witness :
  main Runs.store_down Demo.Document_repr Demo.traceback_format_exc
    Demo.environ Demo.question 0%nat
  = (Ok tt, 1%nat,
     [StTitle _ _ "Hotel Recommendation System";
      StWrite _ _ intro_text;
      ClusterNew _ _ "couchbase://localhost" "admin" "secret";
      LogError _ _ "Error connecting to Couchbase cluster: unambiguous timeout" false;
      StError _ _ "An error occurred while processing your request.";
      StError _ _ "Traceback (most recent call last): unambiguous timeout";
      LogError _ _ "Exception occurred: unambiguous timeout" true])
  /\ connections_created
       (trace_of (main Runs.store_down Demo.Document_repr Demo.traceback_format_exc
                    Demo.environ Demo.question 0%nat)) = 1%nat.
Proof.
  apply (initialize_cluster_connect_or_raise nat nat (list Z) Runs.store_down
           Demo.Document_repr Demo.traceback_format_exc
           "couchbase://localhost" "admin" "secret" 0%nat)
    with (b := "travel") (s := "inventory") (c := "hotel") (i := "reviews")
         (e := CouchbaseException "unambiguous timeout")
         (t1 := [ClusterNew _ _ "couchbase://localhost" "admin" "secret";
                 LogError _ _
                   "Error connecting to Couchbase cluster: unambiguous timeout" false]).
  - exact Runs.demo_settings.
  - reflexivity.
  - reflexivity.
Defined.

Lemma external_error_reaches_handler_witness :
  exists t_try : list (event nat (list Z)),
    main Runs.completion_down Demo.Document_repr Demo.traceback_format_exc
      Demo.environ Demo.question 0%nat
    = (Ok tt, 6%nat,
       StTitle _ _ "Hotel Recommendation System" :: StWrite _ _ intro_text
       :: (t_try
           ++ handler_trace Demo.traceback_format_exc
                (OtherException "RateLimitError" "quota exceeded"))%list)
    /\ Forall (fun ev => is_write ev = false) t_try.
Proof.
  assert (Herr : external_error Runs.completion_down Demo.Document_repr
            "couchbase://localhost" "admin" "secret" "travel" "inventory" "hotel"
            "reviews" Demo.question 0%nat
            (OtherException "RateLimitError" "quota exceeded") 6%nat).
  { apply (completion_error _ _ _ _ _ _ _ _ _ _ _ _ _ _ _ _
             0%nat 3%nat 4%nat 5%nat [34]
             [mkDocument "Great ocean view, friendly staff" []]).
    - exists 2%nat, 2%nat, 3%nat.
      split; [exists 1%nat; split; reflexivity | repeat split; reflexivity].
    - discriminate.
    - reflexivity.
    - reflexivity.
    - reflexivity. }
  destruct (external_error_reaches_handler nat nat (list Z) Runs.completion_down
              Demo.Document_repr Demo.traceback_format_exc Demo.environ
              "couchbase://localhost" "admin" "secret" "travel" "inventory" "hotel"
              "reviews" Demo.question [] 0%nat 6%nat
              (OtherException "RateLimitError" "quota exceeded")
              Runs.demo_settings Herr eq_refl)
    as (t_try & _ & Hwrites & Hmain & _).
  exists t_try. split; [exact Hmain | exact Hwrites].
Defined.

Lemma retriever_returns_store_order_witness :
  as_retriever Demo.services_ranked
    (rag_vector_store 0%nat "travel" "inventory" "hotel" "reviews")
    Demo.question 3%nat
  = (Ok [mkDocument "Pool was closed" [("hotel", "Seaside")];
         mkDocument "Great ocean view, friendly staff" [("hotel", "Seaside")];
         mkDocument "Average breakfast" [("hotel", "Harbour")];
         mkDocument "Pool was closed" [("hotel", "Seaside")]], 5%nat,
     [EmbedQuery _ _ rag_embeddings Demo.question;
      SimilaritySearch _ _
        (rag_vector_store 0%nat "travel" "inventory" "hotel" "reviews") [34]])
  /\ outcome_of
       (rag_inputs Demo.services_ranked
          (rag_vector_store 0%nat "travel" "inventory" "hotel" "reviews")
          Demo.question 3%nat)
     = Ok (prompt_input Demo.ranking Demo.question)
  /\ prompt_input Demo.ranking Demo.question !! "context"
     = Some (VDocs Demo.ranking)
  /\ trace_of
       (rag_chain Demo.services_ranked Demo.Document_repr
          (rag_vector_store 0%nat "travel" "inventory" "hotel" "reviews") rag_llm
          Demo.question 3%nat)
     = [EmbedQuery _ _ rag_embeddings Demo.question;
        SimilaritySearch _ _
          (rag_vector_store 0%nat "travel" "inventory" "hotel" "reviews") [34];
        ChatCompletion _ _ rag_llm
          (spec_prompt
             ("[Document(page_content='Pool was closed'), "
              +:+ "Document(page_content='Great ocean view, friendly staff'), "
              +:+ "Document(page_content='Average breakfast'), "
              +:+ "Document(page_content='Pool was closed')]")
             Demo.question)].
Proof.
  exact (retriever_returns_store_order nat nat (list Z) Demo.services_ranked
           Demo.Document_repr
           (rag_vector_store 0%nat "travel" "inventory" "hotel" "reviews") rag_llm
           Demo.question 3%nat 4%nat 5%nat [34] Demo.ranking eq_refl eq_refl).
Defined.



Lemma empty_question_skips_chain_witness :
  Forall (fun ev : event nat (list Z) => is_chain_call ev = false)
    (trace_of (main Runs.up Demo.Document_repr Demo.traceback_format_exc
                 Demo.environ EmptyString 0%nat))
  /\ Demo.question <> EmptyString.
Proof.
  destruct (empty_question_skips_chain nat nat (list Z) Runs.up
              Demo.Document_repr Demo.traceback_format_exc Demo.environ 0%nat)
    as (Hcalls & _ & Honly).
  split; [exact Hcalls |].
  apply Honly. vm_compute.
  do 10 apply Exists_cons_tl. apply Exists_cons_hd. reflexivity.
Defined.

Lemma first_missing_key_reported_witness :
  main Runs.up Demo.Document_repr Demo.traceback_format_exc
    (delete "COUCHBASE_SCOPE" (delete "COUCHBASE_BUCKET" Demo.environ))
    Demo.question 0%nat
  = (Raise (SystemExit 1), 0%nat, missing_trace "COUCHBASE_BUCKET").
Proof.
  apply (first_missing_key_reported nat nat (list Z) Runs.up Demo.Document_repr
           Demo.traceback_format_exc
           (delete "COUCHBASE_SCOPE" (delete "COUCHBASE_BUCKET" Demo.environ))
           Demo.question 0%nat
           ["COUCHBASE_CONNECTION_STRING"; "COUCHBASE_USERNAME"; "COUCHBASE_PASSWORD"]
           ["COUCHBASE_SCOPE"; "COUCHBASE_COLLECTION"; "COUCHBASE_SEARCH_INDEX"]
           "COUCHBASE_BUCKET").
  - reflexivity.
  - repeat constructor; vm_compute; eexists; reflexivity.
  - vm_compute. reflexivity.
Defined.

Lemma empty_retrieval_still_completes_witness :
  rag_chain (Demo.services_no_match) Demo.Document_repr
    (rag_vector_store 0%nat "travel" "inventory" "hotel" "reviews") rag_llm
    Demo.question 3%nat
  = (Ok "I have no reviews to go on.", 6%nat,
     [EmbedQuery _ _ rag_embeddings Demo.question;
      SimilaritySearch _ _
        (rag_vector_store 0%nat "travel" "inventory" "hotel" "reviews") [34];
      ChatCompletion _ _ rag_llm (spec_prompt "[]" Demo.question)]).
Proof.
  apply (empty_retrieval_still_completes nat nat (list Z) Demo.services_no_match
           Demo.Document_repr
           (rag_vector_store 0%nat "travel" "inventory" "hotel" "reviews") rag_llm
           Demo.question 3%nat 4%nat 5%nat [34]);
    reflexivity.
Defined.

Lemma answered_question_run_witness :
  main Runs.up Demo.Document_repr Demo.traceback_format_exc Demo.environ
    Demo.question 0%nat
  = (Ok tt, 6%nat,
     StTitle _ _ "Hotel Recommendation System" :: StWrite _ _ intro_text
     :: answered_trace Demo.Document_repr "couchbase://localhost" "admin" "secret"
          "travel" "inventory" "hotel" "reviews" 0%nat Demo.question [34]
          [mkDocument "Great ocean view, friendly staff" []]
          (mkAIMessage "Guests praise the ocean view.")).
Proof.
  apply (answered_question_run nat nat (list Z) Runs.up Demo.Document_repr
           Demo.traceback_format_exc Demo.environ
           "couchbase://localhost" "admin" "secret" "travel" "inventory" "hotel"
           "reviews" Demo.question 0%nat 3%nat 4%nat 5%nat 6%nat 0%nat [34]
           [mkDocument "Great ocean view, friendly staff" []]
           (mkAIMessage "Guests praise the ocean view.")).
  - exact Runs.demo_settings.
  - discriminate.
  - exists 2%nat, 2%nat, 3%nat.
    split; [exists 1%nat; split; reflexivity | repeat split; reflexivity].
  - reflexivity.
  - reflexivity.
  - reflexivity.
Defined.

Ltac in_trace :=
  vm_compute; repeat first [apply list_elem_of_here | apply list_elem_of_further].

Lemma settings_reach_the_clients_witness :
  Demo.environ !! "COUCHBASE_CONNECTION_STRING" = Some "couchbase://localhost"
  /\ Demo.environ !! "COUCHBASE_USERNAME" = Some "admin"
  /\ Demo.environ !! "COUCHBASE_PASSWORD" = Some "secret".
Proof.
  apply (settings_reach_the_clients nat nat (list Z) Runs.up Demo.Document_repr
           Demo.traceback_format_exc Demo.environ Demo.question 0%nat).
  in_trace.
Defined.

Lemma success_record_excludes_errors_witness :
  outcome_of (main Runs.up Demo.Document_repr Demo.traceback_format_exc
                Demo.environ Demo.question 0%nat) = Ok tt
  /\ Forall (fun ev : event nat (list Z) => is_error_report ev = false)
       (trace_of (main Runs.up Demo.Document_repr Demo.traceback_format_exc
                    Demo.environ Demo.question 0%nat))
  /\ (exists (before between after : list (event nat (list Z)))
             (llm : ChatModel) (prompt : string),
        trace_of (main Runs.up Demo.Document_repr Demo.traceback_format_exc
                    Demo.environ Demo.question 0%nat)
        = (before ++ ChatCompletion _ _ llm prompt
             :: between ++ StWrite _ _ "Response:" :: after)%list).
Proof.
  destruct (success_record_excludes_errors nat nat (list Z) Runs.up
              Demo.Document_repr Demo.traceback_format_exc Demo.environ
              Demo.question 0%nat) as (Hout & Hclean & _ & Horder & _).
  - in_trace.
  - split; [exact Hout |]. split; [exact Hclean | exact Horder].
Defined.

Lemma text_input_iff_constructed_witness :
  StTextInput _ _ "Enter your question about hotels:"
    ∈ trace_of (main Runs.completion_down Demo.Document_repr
                  Demo.traceback_format_exc Demo.environ Demo.question 0%nat).
Proof.
  apply (text_input_iff_constructed nat nat (list Z) Runs.completion_down
           Demo.Document_repr Demo.traceback_format_exc Demo.environ
           Demo.question 0%nat).
  exists "couchbase://localhost", "admin", "secret", "travel", "inventory",
    "hotel", "reviews", 0%nat, 3%nat.
  split; [exact Runs.demo_settings |].
  exists 2%nat, 2%nat, 3%nat.
  split; [exists 1%nat; split; reflexivity | repeat split; reflexivity].
Defined.

Lemma no_exception_escapes_main_witness :
  outcome_of (main Runs.up Demo.Document_repr Demo.traceback_format_exc
                (delete "COUCHBASE_BUCKET" Demo.environ) Demo.question 0%nat)
  = Raise (SystemExit 1)
  /\ is_Exception (SystemExit 1) = false.
Proof.
  assert (Hout : outcome_of (main Runs.up Demo.Document_repr
                               Demo.traceback_format_exc
                               (delete "COUCHBASE_BUCKET" Demo.environ)
                               Demo.question 0%nat)
                 = Raise (SystemExit 1)) by (vm_compute; reflexivity).
  split; [exact Hout |].
  exact (no_exception_escapes_main nat nat (list Z) Runs.up Demo.Document_repr
           Demo.traceback_format_exc (delete "COUCHBASE_BUCKET" Demo.environ)
           Demo.question 0%nat (SystemExit 1) Hout).
Defined.

Lemma service_errors_never_end_the_process_witness :
  outcome_of (main Runs.completion_down Demo.Document_repr
                Demo.traceback_format_exc Demo.environ Demo.question 0%nat) = Ok tt
  /\ outcome_of (session Runs.completion_down Demo.Document_repr
                   Demo.traceback_format_exc Demo.environ
                   [Demo.question; EmptyString; Demo.question] 0%nat) = None.
Proof.
  assert (Honly : exceptions_only Runs.completion_down).
  { unfold exceptions_only, raises_exceptions_only. cbn.
    repeat split; intros; first [discriminate | simplify_eq; reflexivity]. }
  destruct (service_errors_never_end_the_process nat nat (list Z)
              Runs.completion_down Demo.Document_repr Demo.traceback_format_exc
              Demo.environ Honly Runs.demo_settings_complete) as [Hmain Hsession].
  split; [apply Hmain | apply Hsession].
Defined.

Lemma errors_displayed_iff_logged_witness :
  exists (msg : string) (exc_info : bool),
    LogError _ _ msg exc_info
      ∈ trace_of (main Runs.store_down Demo.Document_repr
                    Demo.traceback_format_exc Demo.environ Demo.question 0%nat).
Proof.
  apply (errors_displayed_iff_logged nat nat (list Z) Runs.store_down
           Demo.Document_repr Demo.traceback_format_exc Demo.environ
           Demo.question 0%nat).
  exists "An error occurred while processing your request.". in_trace.
Defined.

Lemma question_is_sent_verbatim_witness :
  exists (cs u p b s c i : string) (cluster : nat) (v : list Z)
         (docs : list Document) (w3 : nat),
    settings Demo.environ cs u p b s c i
    /\ retrieved Demo.services_ranked cs u p b s c i Demo.question 0%nat
         cluster v docs w3
    /\ SimilaritySearch _ _ (rag_vector_store cluster b s c i) v
         ∈ trace_of (main Demo.services_ranked Demo.Document_repr
                       Demo.traceback_format_exc Demo.environ Demo.question 0%nat)
    /\ rag_llm = rag_llm
    /\ spec_prompt (list_str Demo.Document_repr Demo.ranking) Demo.question
       = spec_prompt (list_str Demo.Document_repr docs) Demo.question.
Proof.
  apply (proj2 (question_is_sent_verbatim nat nat (list Z) Demo.services_ranked
                  Demo.Document_repr Demo.traceback_format_exc Demo.environ
                  Demo.question 0%nat) rag_llm).
  in_trace.
Defined.

Lemma only_the_reply_is_written_witness :
  "Reply after 5 requests." = intro_text
  \/ "Reply after 5 requests." = "Response:"
  \/ (exists (cs u p b s c i : string) (cluster : nat) (v : list Z)
             (docs : list Document) (message : AIMessage) (w' : nat),
        settings Demo.environ cs u p b s c i
        /\ answered Demo.services_ranked Demo.Document_repr cs u p b s c i
             Demo.question 0%nat cluster v docs message w'
        /\ ChatCompletion _ _ rag_llm
             (spec_prompt (list_str Demo.Document_repr docs) Demo.question)
             ∈ trace_of (main Demo.services_ranked Demo.Document_repr
                           Demo.traceback_format_exc Demo.environ
                           Demo.question 0%nat)
        /\ "Reply after 5 requests." = content message).
Proof.
  apply (only_the_reply_is_written nat nat (list Z) Demo.services_ranked
           Demo.Document_repr Demo.traceback_format_exc Demo.environ
           Demo.question 0%nat).
  in_trace.
Defined.
